(** * Image merge service: the generation orchestration of
    [services/geminiService.ts], embedded shallowly.

    The asynchronous function [generateMergedImage] talks to one external
    capability, [ai.models.generateContent].  The capability is kept abstract:
    a transition on an arbitrary [World] that answers a request either with a
    response or with a rejection.  Every [await] is sequential in the source, so
    the function is a state-and-exception computation over the world, and the
    embedding records each invocation in a call log. *)

From Stdlib Require Import String Ascii List ZArith Bool Lia DecimalString Permutation.
Import ListNotations.
Local Open Scope string_scope.

(* ================================================================== *)
(** ** JavaScript values the service inspects *)

(** [s.includes(needle)] on strings. *)
Fixpoint includes (s needle : string) : bool :=
  if String.prefix needle s then true
  else match s with
       | EmptyString => false
       | String _ rest => includes rest needle
       end.

(** Truthiness of a possibly-undefined string: [undefined] and [""] are falsy. *)
Definition truthy (s : option string) : bool :=
  match s with
  | Some (String _ _) => true
  | _ => false
  end.

(** The exceptions that flow through the service.  [Error m] is [new Error(m)],
    raised by the service itself; [TypeError m] is raised by the engine on a
    property read of [undefined]; [Rejection st m] is whatever the SDK call
    rejects with, an object that may carry a numeric [status] and a [message]. *)
Inductive JsError : Type :=
| Error (msg : string)
| TypeError (msg : string)
| Rejection (st : option Z) (msg : option string).

(** [e.status] *)
Definition status (e : JsError) : option Z :=
  match e with
  | Rejection st _ => st
  | _ => None
  end.

(** [e.message] *)
Definition message (e : JsError) : option string :=
  match e with
  | Error m => Some m
  | TypeError m => Some m
  | Rejection _ m => m
  end.

(** [e.status === n] *)
Definition statusIs (e : JsError) (n : Z) : bool :=
  match status e with
  | Some st => Z.eqb st n
  | None => false
  end.

(** [e.message?.includes(needle)], read as a condition. *)
Definition messageIncludes (e : JsError) (needle : string) : bool :=
  match message e with
  | Some m => includes m needle
  | None => false
  end.

(** The engine's error for [undefined.prop] (V8 wording; other engines word it
    differently, none of them with a status). *)
Definition readOfUndefined (prop : string) : JsError :=
  TypeError ("Cannot read properties of undefined (reading '" ++ prop ++ "')").

(** How an evaluation ends: normally with a value, or abruptly with a throw. *)
Inductive Completion (A : Type) : Type :=
| Normal (a : A)
| Throw (e : JsError).
Arguments Normal {A} a.
Arguments Throw {A} e.

(* ================================================================== *)
(** ** types.ts *)

Inductive AspectRatio : Type :=
| SQUARE | LANDSCAPE | PORTRAIT | STANDARD_LANDSCAPE | STANDARD_PORTRAIT.

Inductive ImageQuality : Type :=
| STANDARD | HIGH.

(** The enum members' run-time values. *)
Definition AspectRatio_value (a : AspectRatio) : string :=
  match a with
  | SQUARE => "1:1"
  | LANDSCAPE => "16:9"
  | PORTRAIT => "9:16"
  | STANDARD_LANDSCAPE => "4:3"
  | STANDARD_PORTRAIT => "3:4"
  end.

Definition ImageQuality_value (q : ImageQuality) : string :=
  match q with
  | STANDARD => "Standard"
  | HIGH => "High (2K)"
  end.

(* ================================================================== *)
(** ** constants.ts *)

Definition MODEL_STANDARD : string := "gemini-2.5-flash-image".
Definition MODEL_HIGH_RES : string := "gemini-3-pro-image-preview".

(* ================================================================== *)
(** ** The SDK's request and response shapes (every field of a response is
    optional in the SDK's declarations) *)

Record Blob : Type := mkBlob
  { mimeType : option string;
    data : option string }.

Record Part : Type := mkPart
  { text : option string;
    inlineData : option Blob }.

Record Content : Type := mkContent
  { parts : option (list Part) }.

Record Candidate : Type := mkCandidate
  { content : option Content }.

Record GenerateContentResponse : Type := mkResponse
  { candidates : option (list Candidate) }.

Record ImageConfig : Type := mkImageConfig
  { aspectRatio : AspectRatio;
    imageSize : option string }.

Record GenerateContentParameters : Type := mkParameters
  { model : string;
    contents : list Part;
    imageConfig : ImageConfig }.

(** Object literals [{ text: t }] and [{ inlineData: { mimeType, data } }]. *)
Definition textPart (t : string) : Part :=
  {| text := Some t; inlineData := None |}.

Definition inlinePart (mime payload : string) : Part :=
  {| text := None;
     inlineData := Some {| mimeType := Some mime; data := Some payload |} |}.

(* ================================================================== *)
(** ** services/geminiService.ts: the pure helpers *)

Definition API_KEY_MISSING : string :=
  "API Key is missing. Please ensure process.env.API_KEY is set.".

Definition NO_IMAGE_GENERATED : string :=
  "No image generated. The model might have refused the request.".

Definition PERMISSION_DENIED_MESSAGE : string :=
  "Permission denied. The API key does not have access to the generative AI models. Please check that the API key is valid and the API is enabled in your Google Cloud project.".

Definition DATA_URI_PREFIX : string := "data:image/png;base64,".

(** The template literal of the text part in [makeRequest]. *)
Definition mergeInstruction (prompt : string) : string :=
  "Merge these two images into one based on this description: " ++ prompt
  ++ ". Ensure the result is a single cohesive image.".

(** The argument object [makeRequest] hands to [ai.models.generateContent]:
    [imageConfig] starts as [{ aspectRatio }] and gains [imageSize] only when
    the model is the high-resolution one. *)
Definition requestFor
  (image1Base64 image1Mime image2Base64 image2Mime prompt : string)
  (ratio : AspectRatio) (mdl : string) : GenerateContentParameters :=
  {| model := mdl;
     contents :=
       [ textPart (mergeInstruction prompt);
         inlinePart image1Mime image1Base64;
         inlinePart image2Mime image2Base64 ];
     imageConfig :=
       {| aspectRatio := ratio;
          imageSize := if String.eqb mdl MODEL_HIGH_RES then Some "2K" else None |} |}.

(** The [for ... of] loop of [extractImageFromResponse]: the first part whose
    [inlineData] and [inlineData.data] are both truthy ends the scan. *)
Fixpoint scanParts (ps : list Part) : option string :=
  match ps with
  | [] => None
  | part :: rest =>
      match inlineData part with
      | Some blob =>
          if truthy (data blob)
          then match data blob with
               | Some d => Some (DATA_URI_PREFIX ++ d)
               | None => scanParts rest
               end
          else scanParts rest
      | None => scanParts rest
      end
  end.

(** [response.candidates?.[0]?.content?.parts?.[0]?.text] *)
Definition leadingText (response : GenerateContentResponse) : option string :=
  match candidates response with
  | Some (c0 :: _) =>
      match content c0 with
      | Some ct =>
          match parts ct with
          | Some (p0 :: _) => text p0
          | _ => None
          end
      | None => None
      end
  | _ => None
  end.

(** What follows the scan: the text feedback check, then the fixed failure. *)
Definition noImageFound (response : GenerateContentResponse) : Completion string :=
  if truthy (leadingText response)
  then match leadingText response with
       | Some t => Throw (Error t)
       | None => Throw (Error NO_IMAGE_GENERATED)
       end
  else Throw (Error NO_IMAGE_GENERATED).

(** [extractImageFromResponse].  The guard
    [response.candidates && response.candidates[0].content.parts] reads
    [candidates[0].content] and [.parts] without optional chaining: an array,
    even an empty one, is truthy, so [candidates === []] reads [.content] of
    [undefined], and a candidate without [content] reads [.parts] of
    [undefined]. *)
Definition extractImageFromResponse (response : GenerateContentResponse)
  : Completion string :=
  match candidates response with
  | None => noImageFound response
  | Some [] => Throw (readOfUndefined "content")
  | Some (c0 :: _) =>
      match content c0 with
      | None => Throw (readOfUndefined "parts")
      | Some ct =>
          match parts ct with
          | None => noImageFound response
          | Some ps =>
              match scanParts ps with
              | Some uri => Normal uri
              | None => noImageFound response
              end
          end
      end
  end.

(** [const initialModel = isHighRes ? MODEL_HIGH_RES : MODEL_STANDARD] *)
Definition isHighRes (quality : ImageQuality) : bool :=
  String.eqb (ImageQuality_value quality) (ImageQuality_value HIGH).

Definition initialModel (quality : ImageQuality) : string :=
  if isHighRes quality then MODEL_HIGH_RES else MODEL_STANDARD.

(** The condition of the inner [catch]. *)
Definition isPermissionOrNotFoundError (firstError : JsError) : bool :=
  statusIs firstError 403
  || statusIs firstError 404
  || messageIncludes firstError "PERMISSION_DENIED"
  || messageIncludes firstError "403".

(** The condition of the outer [catch]. *)
Definition isPermissionDenied (error : JsError) : bool :=
  statusIs error 403 || messageIncludes error "PERMISSION_DENIED".

(** The outer [catch]: a permission error is replaced by a fresh [Error] with
    the fixed text, anything else is rethrown. *)
Definition rethrowForUi (error : JsError) : JsError :=
  if isPermissionDenied error then Error PERMISSION_DENIED_MESSAGE else error.

(** App.tsx, [handleGenerate]: [err.message || 'Failed to generate ...']. *)
Definition errorMessage (err : JsError) : string :=
  if truthy (message err)
  then match message err with
       | Some m => m
       | None => "Failed to generate image. Please try again."
       end
  else "Failed to generate image. Please try again.".

(* ================================================================== *)
(** ** services/geminiService.ts: the asynchronous part *)

Section Service.

Variable World : Type.

(** [ai.models.generateContent]: the external capability. *)
Variable generateContent :
  GenerateContentParameters -> World ->
  Completion GenerateContentResponse * World.

(** One invocation of the capability, with what it answered. *)
Record Call : Type := mkCall
  { request : GenerateContentParameters;
    reply : Completion GenerateContentResponse }.

(** The state an execution threads: the outside world and the invocations
    made so far, oldest first. *)
Record Run : Type := mkRun
  { world : World;
    calls : list Call }.

Definition Async (A : Type) : Type := Run -> Completion A * Run.

Definition ret {A : Type} (a : A) : Async A := fun s => (Normal a, s).

Definition throw {A : Type} (e : JsError) : Async A := fun s => (Throw e, s).

Definition lift {A : Type} (c : Completion A) : Async A := fun s => (c, s).

Definition bind {A B : Type} (m : Async A) (k : A -> Async B) : Async B :=
  fun s =>
    match m s with
    | (Normal a, s') => k a s'
    | (Throw e, s') => (Throw e, s')
    end.

(** [try { body } catch (e) { handler }] *)
Definition tryCatch {A : Type} (body : Async A) (handler : JsError -> Async A)
  : Async A :=
  fun s =>
    match body s with
    | (Normal a, s') => (Normal a, s')
    | (Throw e, s') => handler e s'
    end.

(** [await ai.models.generateContent(p)] *)
Definition invoke (p : GenerateContentParameters) : Async GenerateContentResponse :=
  fun s =>
    let (r, w) := generateContent p (world s) in
    (r, {| world := w; calls := calls s ++ [ {| request := p; reply := r |} ] |}).

Section Arguments.

Variables image1Base64 image1Mime image2Base64 image2Mime prompt : string.
Variable ratio : AspectRatio.
Variable quality : ImageQuality.

Definition makeRequest (mdl : string) : Async GenerateContentResponse :=
  invoke (requestFor image1Base64 image1Mime image2Base64 image2Mime prompt ratio mdl).

(** One attempt: the request, then the extraction of its response. *)
Definition attempt (mdl : string) : Async string :=
  bind (makeRequest mdl) (fun response => lift (extractImageFromResponse response)).

(** The inner [try]/[catch]. *)
Definition innerTry : Async string :=
  tryCatch
    (attempt (initialModel quality))
    (fun firstError =>
       if isHighRes quality && isPermissionOrNotFoundError firstError
       then attempt MODEL_STANDARD
       else throw firstError).

(** [generateMergedImage]; [apiKey] is [process.env.API_KEY].  The two
    [console] calls write to the console only and are left out. *)
Definition generateMergedImage (apiKey : option string) : Async string :=
  if negb (truthy apiKey)
  then throw (Error API_KEY_MISSING)
  else tryCatch innerTry (fun error => throw (rethrowForUi error)).

End Arguments.

(** A call from a fresh state: nothing invoked yet. *)
Definition start (w : World) : Run := {| world := w; calls := [] |}.

End Service.

Arguments mkRun {World} world calls.
Arguments world {World} r.
Arguments calls {World} r.
Arguments start {World} w.

(* ================================================================== *)
(** ** A scripted capability, for running the service on concrete inputs *)

(** The world is the list of answers still to give; each invocation consumes
    one, and an exhausted script rejects. *)
Definition Script : Type := list (Completion GenerateContentResponse).

Definition scripted (p : GenerateContentParameters) (w : Script)
  : Completion GenerateContentResponse * Script :=
  match w with
  | [] => (Throw (Rejection None (Some "script exhausted")), [])
  | r :: rest => (r, rest)
  end.

(** A response whose only candidate carries the given parts. *)
Definition responseOf (ps : list Part) : GenerateContentResponse :=
  {| candidates := Some [ {| content := Some {| parts := Some ps |} |} ] |}.

(** [generateMergedImage] on fixed images, against a script. *)
Definition mergeWith (apiKey : option string) (quality : ImageQuality) (w : Script)
  : Completion string * Run Script :=
  generateMergedImage Script scripted "QUFB" "image/png" "QkJC" "image/jpeg"
    "put the cat on the sofa" SQUARE quality apiKey (start w).

(* ================================================================== *)
(** ** constants.ts, the rest *)

Definition DEFAULT_ASPECT_RATIO : AspectRatio := SQUARE.
Definition DEFAULT_QUALITY : ImageQuality := STANDARD.

Definition MAX_FILE_SIZE_MB : Z := 10.
Definition ACCEPTED_IMAGE_TYPES : list string :=
  [ "image/jpeg"; "image/png"; "image/webp" ].

(* ================================================================== *)
(** ** More of JavaScript: split, trim, Array.prototype.includes

    A [string] here is a sequence of code units below 256. *)

(** [s.split(sep)] for a one-character separator. *)
Fixpoint split (sep : ascii) (s : string) : list string :=
  match s with
  | EmptyString => [ EmptyString ]
  | String c rest =>
      if Ascii.eqb c sep then EmptyString :: split sep rest
      else match split sep rest with
           | piece :: pieces => String c piece :: pieces
           | [] => [ String c EmptyString ]
           end
  end.

(** The white space and line terminators [trim] strips, among the code units
    below 256: TAB, LF, VT, FF, CR, SP and NBSP. *)
Definition isWhiteSpace (c : ascii) : bool :=
  match nat_of_ascii c with
  | 9 | 10 | 11 | 12 | 13 | 32 | 160 => true
  | _ => false
  end.

Fixpoint trimStart (s : string) : string :=
  match s with
  | EmptyString => EmptyString
  | String c rest => if isWhiteSpace c then trimStart rest else s
  end.

Fixpoint trimEnd (s : string) : string :=
  match s with
  | EmptyString => EmptyString
  | String c rest =>
      match trimEnd rest with
      | EmptyString => if isWhiteSpace c then EmptyString else String c EmptyString
      | kept => String c kept
      end
  end.

(** [s.trim()] *)
Definition trim (s : string) : string := trimEnd (trimStart s).

(** [xs.includes(x)] on an array of strings. *)
Definition arrayIncludes (xs : list string) (x : string) : bool :=
  existsb (String.eqb x) xs.

(* ================================================================== *)
(** ** App.tsx

    The component's state and its handlers.  A handler runs as one step from
    the state it was rendered with; what the browser decides (what a
    [FileReader] makes of a file, the URL [URL.createObjectURL] hands out) is
    an argument of the step, and what the handler does to the browser (object
    URLs created and revoked, downloads started) is logged. *)

Module App.

(** The two properties of a [File] that [handleUpload] reads. *)
Record File : Type := mkFile
  { size : Z;
    type : string }.

(** types.ts *)
Record UploadedImage : Type := mkUploadedImage
  { file : File;
    previewUrl : string;
    base64 : string;
    mimeType : string }.

Record GenerationConfig : Type := mkGenerationConfig
  { aspectRatio : AspectRatio;
    quality : ImageQuality }.

(** The [useState] cells of [App]. *)
Record State : Type := mkState
  { image1 : option UploadedImage;
    image2 : option UploadedImage;
    prompt : string;
    config : GenerationConfig;
    isGenerating : bool;
    resultImage : option string;
    error : option string }.

Definition initialState : State :=
  {| image1 := None;
     image2 := None;
     prompt := "";
     config := {| aspectRatio := DEFAULT_ASPECT_RATIO; quality := DEFAULT_QUALITY |};
     isGenerating := false;
     resultImage := None;
     error := None |}.

Definition setImage1 (v : option UploadedImage) (st : State) : State :=
  {| image1 := v; image2 := image2 st; prompt := prompt st; config := config st;
     isGenerating := isGenerating st; resultImage := resultImage st;
     error := error st |}.

Definition setImage2 (v : option UploadedImage) (st : State) : State :=
  {| image1 := image1 st; image2 := v; prompt := prompt st; config := config st;
     isGenerating := isGenerating st; resultImage := resultImage st;
     error := error st |}.

Definition setPrompt (v : string) (st : State) : State :=
  {| image1 := image1 st; image2 := image2 st; prompt := v; config := config st;
     isGenerating := isGenerating st; resultImage := resultImage st;
     error := error st |}.

Definition setConfig (v : GenerationConfig) (st : State) : State :=
  {| image1 := image1 st; image2 := image2 st; prompt := prompt st; config := v;
     isGenerating := isGenerating st; resultImage := resultImage st;
     error := error st |}.

Definition setIsGenerating (v : bool) (st : State) : State :=
  {| image1 := image1 st; image2 := image2 st; prompt := prompt st;
     config := config st; isGenerating := v; resultImage := resultImage st;
     error := error st |}.

Definition setResultImage (v : option string) (st : State) : State :=
  {| image1 := image1 st; image2 := image2 st; prompt := prompt st;
     config := config st; isGenerating := isGenerating st; resultImage := v;
     error := error st |}.

Definition setError (v : option string) (st : State) : State :=
  {| image1 := image1 st; image2 := image2 st; prompt := prompt st;
     config := config st; isGenerating := isGenerating st;
     resultImage := resultImage st; error := v |}.

(** The upload slots, [1 | 2]. *)
Inductive Slot : Type := One | Two.

Definition imageAt (slot : Slot) (st : State) : option UploadedImage :=
  match slot with
  | One => image1 st
  | Two => image2 st
  end.

(** What the [FileReader] of [readFileAsBase64] reports: [onload] with its
    [result] (a string, or something else), or [onerror]. *)
Inductive Reading : Type :=
| Loaded (result : option string)
| Failed.

(** How a promise stands when nothing more will happen to it. *)
Inductive Settled (A : Type) : Type :=
| Resolved (a : A)
| Rejected
| Pending.
Arguments Resolved {A} a.
Arguments Rejected {A}.
Arguments Pending {A}.

(** [readFileAsBase64]: on load of a string the promise resolves with
    [result.split(',')[1]], which is [undefined] when the string has no comma;
    on load of anything else it is never settled; on error it rejects. *)
Definition readFileAsBase64 (reading : Reading) : Settled (option string) :=
  match reading with
  | Loaded (Some result) => Resolved (nth_error (split "," result) 1)
  | Loaded None => Pending
  | Failed => Rejected
  end.

(** What a handler did to the browser's object URLs. *)
Inductive UrlEvent : Type :=
| Created (url : string)
| Revoked (url : string).

(** A started download: the link's [href] and [download] attributes. *)
Record Download : Type := mkDownload
  { href : string;
    download : string }.

Section Handlers.

Variable World : Type.
Variable generateContent :
  GenerateContentParameters -> World ->
  Completion GenerateContentResponse * World.

(** [process.env.API_KEY] *)
Variable apiKey : option string.

(** The page: the component's state, the service's world with its call log,
    and the two logs of browser effects, oldest first. *)
Record Page : Type := mkPage
  { ui : State;
    service : Run World;
    objectUrls : list UrlEvent;
    downloads : list Download }.

Definition withUi (f : State -> State) (pg : Page) : Page :=
  {| ui := f (ui pg); service := service pg; objectUrls := objectUrls pg;
     downloads := downloads pg |}.

Definition logUrl (e : UrlEvent) (pg : Page) : Page :=
  {| ui := ui pg; service := service pg;
     objectUrls := (objectUrls pg ++ [ e ])%list; downloads := downloads pg |}.

(** [if (image?.previewUrl) URL.revokeObjectURL(image.previewUrl)] *)
Definition revokePreview (image : option UploadedImage) (pg : Page) : Page :=
  match image with
  | Some img =>
      if truthy (Some (previewUrl img)) then logUrl (Revoked (previewUrl img)) pg
      else pg
  | None => pg
  end.

(** [handleUpload].  [url] is what [URL.createObjectURL(file)] returns, should
    the handler get that far.  No result ([None]) stands for the one case the
    state's types do not hold: the reader's string has no comma, so that
    [base64] would be [undefined]. *)
Definition handleUpload
  (f : File) (slot : Slot) (reading : Reading) (url : string) (pg : Page)
  : option Page :=
  if (size f >? MAX_FILE_SIZE_MB * 1024 * 1024)%Z then
    Some (withUi
            (setError
               (Some ("File size too large. Max "
                      ++ NilZero.string_of_int (Z.to_int MAX_FILE_SIZE_MB) ++ "MB.")))
            pg)
  else if negb (arrayIncludes ACCEPTED_IMAGE_TYPES (type f)) then
    Some (withUi (setError (Some "Invalid file type. Please upload JPG, PNG, or WEBP.")) pg)
  else
    match readFileAsBase64 reading with
    | Resolved (Some b) =>
        let newImage :=
          {| file := f; previewUrl := url; base64 := b; mimeType := type f |} in
        Some (withUi (setError None)
                (withUi
                   (match slot with
                    | One => setImage1 (Some newImage)
                    | Two => setImage2 (Some newImage)
                    end)
                   (logUrl (Created url) pg)))
    | Resolved None => None
    | Rejected => Some (withUi (setError (Some "Failed to process image.")) pg)
    | Pending => Some pg
    end.

(** [handleRemoveImage] *)
Definition handleRemoveImage (slot : Slot) (pg : Page) : Page :=
  match slot with
  | One => withUi (setImage1 None) (revokePreview (image1 (ui pg)) pg)
  | Two => withUi (setImage2 None) (revokePreview (image2 (ui pg)) pg)
  end.

(** [handleGenerate], from the click to the end of its [finally]; the
    scrolling of the page is left out. *)
Definition handleGenerate (pg : Page) : Page :=
  match image1 (ui pg), image2 (ui pg) with
  | Some img1, Some img2 =>
      if negb (truthy (Some (trim (prompt (ui pg))))) then
        withUi (setError (Some "Please describe how to merge the images.")) pg
      else
        let begun :=
          setResultImage None (setError None (setIsGenerating true (ui pg))) in
        match
          generateMergedImage World generateContent
            (base64 img1) (mimeType img1) (base64 img2) (mimeType img2)
            (prompt (ui pg)) (aspectRatio (config (ui pg))) (quality (config (ui pg)))
            apiKey (service pg)
        with
        | (Normal result, s) =>
            {| ui := setIsGenerating false (setResultImage (Some result) begun);
               service := s; objectUrls := objectUrls pg; downloads := downloads pg |}
        | (Throw err, s) =>
            {| ui := setIsGenerating false (setError (Some (errorMessage err)) begun);
               service := s; objectUrls := objectUrls pg; downloads := downloads pg |}
        end
  | _, _ => withUi (setError (Some "Please upload both images.")) pg
  end.

(** [handleDownload] *)
Definition handleDownload (pg : Page) : Page :=
  match resultImage (ui pg) with
  | Some (String c rest) =>
      {| ui := ui pg; service := service pg; objectUrls := objectUrls pg;
         downloads :=
           (downloads pg
            ++ [ {| href := String c rest; download := "merged-image.png" |} ])%list |}
  | _ => pg
  end.

(** [handleReset] *)
Definition handleReset (pg : Page) : Page :=
  withUi
    (fun st =>
       setConfig
         {| aspectRatio := DEFAULT_ASPECT_RATIO; quality := DEFAULT_QUALITY |}
         (setError None
            (setResultImage None
               (setPrompt "" (setImage2 None (setImage1 None st))))))
    (revokePreview (image2 (ui pg)) (revokePreview (image1 (ui pg)) pg)).

(** What the user can do to the page. *)
Inductive Event : Type :=
| Upload (f : File) (slot : Slot) (reading : Reading) (url : string)
| RemoveImage (slot : Slot)
| TypePrompt (value : string)
| SelectAspectRatio (value : AspectRatio)
| SelectQuality (value : ImageQuality)
| Generate
| DownloadResult
| Reset.

(** The [onChange] and [onClick] attributes of the rendered elements. *)
Definition handle (e : Event) (pg : Page) : option Page :=
  match e with
  | Upload f slot reading url => handleUpload f slot reading url pg
  | RemoveImage slot => Some (handleRemoveImage slot pg)
  | TypePrompt value => Some (withUi (setPrompt value) pg)
  | SelectAspectRatio value =>
      Some (withUi
              (fun st =>
                 setConfig
                   {| aspectRatio := value; quality := quality (config st) |} st)
              pg)
  | SelectQuality value =>
      Some (withUi
              (fun st =>
                 setConfig
                   {| aspectRatio := aspectRatio (config st); quality := value |} st)
              pg)
  | Generate => Some (handleGenerate pg)
  | DownloadResult => Some (handleDownload pg)
  | Reset => Some (handleReset pg)
  end.

(** Which elements the JSX renders and enables in a state: the file input of a
    slot only while the slot is empty, its remove button only while it is
    filled, the generate button unless [disabled], the reset button while
    anything is there to reset and nothing is being generated, the download
    button with a result. *)
Definition generateDisabled (st : State) : bool :=
  isGenerating st
  || match image1 st with Some _ => false | None => true end
  || match image2 st with Some _ => false | None => true end
  || negb (truthy (Some (prompt st))).

Definition offered (e : Event) (st : State) : bool :=
  match e with
  | Upload _ slot _ _ =>
      match imageAt slot st with Some _ => false | None => true end
  | RemoveImage slot =>
      match imageAt slot st with Some _ => true | None => false end
  | TypePrompt _ | SelectAspectRatio _ | SelectQuality _ => true
  | Generate => negb (generateDisabled st)
  | DownloadResult => truthy (resultImage st)
  | Reset =>
      (match image1 st with Some _ => true | None => false end
       || match image2 st with Some _ => true | None => false end
       || truthy (Some (prompt st))
       || truthy (resultImage st))
      && negb (isGenerating st)
  end.

(** A session: events one after the other.  [None] when an upload leaves the
    embedding. *)
Fixpoint session (events : list Event) (pg : Page) : option Page :=
  match events with
  | [] => Some pg
  | e :: later =>
      match handle e pg with
      | Some pg' => session later pg'
      | None => None
      end
  end.

(** The same, but only with events the rendered page offers. *)
Fixpoint offeredSession (events : list Event) (pg : Page) : option Page :=
  match events with
  | [] => Some pg
  | e :: later =>
      if offered e (ui pg)
      then match handle e pg with
           | Some pg' => offeredSession later pg'
           | None => None
           end
      else None
  end.

(** The page as first rendered. *)
Definition initialPage (w : World) : Page :=
  {| ui := initialState; service := start w; objectUrls := []; downloads := [] |}.

End Handlers.

Arguments ui {World} p.
Arguments service {World} p.
Arguments objectUrls {World} p.
Arguments downloads {World} p.

(** The object URLs still alive after a log of creations and revocations. *)
Fixpoint removeOne (u : string) (urls : list string) : list string :=
  match urls with
  | [] => []
  | v :: rest => if String.eqb u v then rest else v :: removeOne u rest
  end.

Definition liveUrls (log : list UrlEvent) : list string :=
  fold_left
    (fun alive e =>
       match e with
       | Created u => u :: alive
       | Revoked u => removeOne u alive
       end)
    log [].

(** The preview URLs the state holds. *)
Definition previewUrls (st : State) : list string :=
  (match image1 st with Some img => [ previewUrl img ] | None => [] end
   ++ match image2 st with Some img => [ previewUrl img ] | None => [] end)%list.

End App.

(* ================================================================== *)
(** ** A page and a session, for running the handlers on concrete inputs *)

Definition pngFile : App.File := {| App.size := 2048; App.type := "image/png" |}.

(** A JPEG of exactly 10 MiB. *)
Definition jpegFile : App.File :=
  {| App.size := 10485760; App.type := "image/jpeg" |}.

(** The capability refuses the high-resolution model and then answers. *)
Definition deniedThenImage : Script :=
  [ Throw (Rejection (Some 403%Z) (Some "Forbidden"));
    Normal (responseOf [ inlinePart "image/png" "QkJC" ]) ].

(** Both images stored, a description typed, nothing generated yet. *)
Definition readyPage : App.Page Script :=
  {| App.ui :=
       {| App.image1 :=
            Some {| App.file := pngFile; App.previewUrl := "blob:1";
                    App.base64 := "QUFB"; App.mimeType := "image/png" |};
          App.image2 :=
            Some {| App.file := jpegFile; App.previewUrl := "blob:2";
                    App.base64 := "QkJC"; App.mimeType := "image/jpeg" |};
          App.prompt := " put the cat on the sofa ";
          App.config := {| App.aspectRatio := LANDSCAPE; App.quality := HIGH |};
          App.isGenerating := false;
          App.resultImage := None;
          App.error := Some "Please upload both images." |};
     App.service := start deniedThenImage;
     App.objectUrls := [ App.Created "blob:1"; App.Created "blob:2" ];
     App.downloads := [] |}.

Definition demoEvents : list App.Event :=
  [ App.Upload pngFile App.One
      (App.Loaded (Some "data:image/png;base64,QUFB")) "blob:1";
    App.Upload jpegFile App.Two
      (App.Loaded (Some "data:image/jpeg;base64,QkJC")) "blob:2";
    App.TypePrompt " put the cat on the sofa ";
    App.SelectAspectRatio LANDSCAPE;
    App.SelectQuality HIGH;
    App.Generate;
    App.DownloadResult;
    App.RemoveImage App.One ].

(* ================================================================== *)
(** ** Vocabulary of the statements *)

(** [needle] occurs in [s]. *)
Definition occursIn (needle s : string) : Prop :=
  exists before after : string, s = before ++ needle ++ after.

(** What one attempt makes of the capability's answer. *)
Definition attemptResult (r : Completion GenerateContentResponse) : Completion string :=
  match r with
  | Normal response => extractImageFromResponse response
  | Throw e => Throw e
  end.

(** A response whose first candidate carries the parts [ps]; [more] are the
    later candidates. *)
Definition responseWith (ps : list Part) (more : list Candidate)
  : GenerateContentResponse :=
  {| candidates := Some ({| content := Some {| parts := Some ps |} |} :: more) |}.

(** The part has no [inlineData], or one whose [data] is absent or empty. *)
Definition carriesNoImage (p : Part) : Prop :=
  forall b : Blob, inlineData p = Some b -> data b = None \/ data b = Some "".

(** The spec's classification of an error as an access denial, in its words:
    status 403, status 404, or a message containing "PERMISSION_DENIED" or
    "403".  [isPermissionOrNotFoundError] is the code's test; the two are
    compared in [isPermissionOrNotFoundError_AccessDenied]. *)
Definition AccessDenied (e : JsError) : Prop :=
  status e = Some 403%Z
  \/ status e = Some 404%Z
  \/ exists m : string,
       message e = Some m /\ (occursIn "PERMISSION_DENIED" m \/ occursIn "403" m).

(** The image is one [handleUpload] lets in: at most 10 MiB, of an accepted
    type, and labelled with its file's type. *)
Definition acceptedImage (img : App.UploadedImage) : Prop :=
  (App.size (App.file img) <= 10485760)%Z
  /\ In (App.mimeType img) [ "image/jpeg"; "image/png"; "image/webp" ]
  /\ App.mimeType img = App.type (App.file img).

Definition acceptedSlot (held : option App.UploadedImage) : Prop :=
  match held with
  | Some img => acceptedImage img
  | None => True
  end.

(** The request's parts are a text and two inline images labelled with
    accepted types. *)
Definition carriesAcceptedImages (p : GenerateContentParameters) : Prop :=
  exists t m1 d1 m2 d2 : string,
    contents p = [ textPart t; inlinePart m1 d1; inlinePart m2 d2 ]
    /\ In m1 [ "image/jpeg"; "image/png"; "image/webp" ]
    /\ In m2 [ "image/jpeg"; "image/png"; "image/webp" ].

(** A PNG-labelled data URI with a non-empty payload. *)
Definition pngDataUri (s : string) : Prop :=
  exists d : string, d <> "" /\ s = "data:image/png;base64," ++ d.

(** Every upload of the session got a non-empty object URL from the browser. *)
Definition urlsNonEmpty (events : list App.Event) : Prop :=
  Forall
    (fun e =>
       match e with
       | App.Upload _ _ _ url => url <> ""
       | _ => True
       end)
    events.

(** What holds of a page however it was reached: the stored images passed
    the upload checks, every request sent so far carries accepted image types,
    a result is a PNG data URI, an error notice has a text, and every download
    was of such a result under the fixed file name. *)
Definition wellFormedPage {World : Type} (pg : App.Page World) : Prop :=
  acceptedSlot (App.image1 (App.ui pg))
  /\ acceptedSlot (App.image2 (App.ui pg))
  /\ Forall (fun c : Call => carriesAcceptedImages (request c))
       (calls (App.service pg))
  /\ match App.resultImage (App.ui pg) with
     | Some uri => pngDataUri uri
     | None => True
     end
  /\ App.error (App.ui pg) <> Some ""
  /\ Forall
       (fun d : App.Download =>
          App.download d = "merged-image.png" /\ pngDataUri (App.href d))
       (App.downloads pg).

(** The object URLs alive are those of the stored previews, and none of these
    is empty. *)
Definition urlsBalanced {World : Type} (pg : App.Page World) : Prop :=
  Permutation (App.liveUrls (App.objectUrls pg)) (App.previewUrls (App.ui pg))
  /\ Forall (fun u : string => u <> "") (App.previewUrls (App.ui pg)).

(* ================================================================== *)
(** ** Strings *)

Lemma prefix_occurs (n s : string) :
  String.prefix n s = true <-> exists after : string, s = n ++ after.
Proof.
  revert s; induction n as [|c n IH]; intros s; simpl.
  - split; [intros _; now exists s | intros _; now destruct s].
  - destruct s as [|c' s]; simpl.
    + split; [discriminate | intros [after H]; discriminate].
    + destruct (Ascii.ascii_dec c c') as [->|Hne].
      * rewrite IH. split; intros [after H]; exists after.
        -- now rewrite H.
        -- now injection H.
      * split; [discriminate | intros [after H]; injection H; congruence].
Qed.

Lemma includes_unfold (s needle : string) :
  includes s needle =
  if String.prefix needle s then true
  else match s with
       | EmptyString => false
       | String _ rest => includes rest needle
       end.
Proof. destruct s; reflexivity. Qed.

Lemma includes_occursIn (s needle : string) :
  includes s needle = true <-> occursIn needle s.
Proof.
  unfold occursIn. induction s as [|c s IH]; rewrite includes_unfold.
  - destruct (String.prefix needle "") eqn:P.
    + split; [intros _ | reflexivity].
      apply prefix_occurs in P. destruct P as [after H]. now exists "", after.
    + split; [discriminate |].
      intros (before & after & H). destruct before; simpl in H.
      * assert (String.prefix needle "" = true) by (apply prefix_occurs; now exists after).
        congruence.
      * discriminate.
  - destruct (String.prefix needle (String c s)) eqn:P.
    + split; [intros _ | reflexivity].
      apply prefix_occurs in P. destruct P as [after H]. now exists "", after.
    + rewrite IH. split.
      * intros (before & after & H). exists (String c before), after. simpl. now rewrite H.
      * intros (before & after & H). destruct before as [|c' before]; simpl in H.
        -- assert (String.prefix needle (String c s) = true)
             by (apply prefix_occurs; now exists after).
           congruence.
        -- injection H as _ H. now exists before, after.
Qed.

(* ================================================================== *)
(** ** The response extractor *)

Lemma truthy_false (s : option string) :
  truthy s = false <-> s = None \/ s = Some "".
Proof.
  destruct s as [[|c s]|]; simpl; split; auto; try discriminate.
  intros [H|H]; discriminate.
Qed.

Lemma scanParts_skip (p : Part) (rest : list Part) :
  carriesNoImage p -> scanParts (p :: rest) = scanParts rest.
Proof.
  intros H. unfold carriesNoImage in H. simpl.
  destruct (inlineData p) as [b|]; [|reflexivity].
  destruct (H b eq_refl) as [E | E]; rewrite E; reflexivity.
Qed.

Lemma scanParts_skip_prefix (pre rest : list Part) :
  Forall carriesNoImage pre -> scanParts (pre ++ rest) = scanParts rest.
Proof.
  induction 1 as [|p pre Hp _ IH]; [reflexivity|].
  rewrite <- app_comm_cons, scanParts_skip; assumption.
Qed.

Lemma scanParts_none (ps : list Part) :
  Forall carriesNoImage ps -> scanParts ps = None.
Proof.
  intros H. rewrite <- (app_nil_r ps). now rewrite scanParts_skip_prefix.
Qed.

Lemma scanParts_hit (p : Part) (b : Blob) (d : string) (rest : list Part) :
  inlineData p = Some b -> data b = Some d -> d <> "" ->
  scanParts (p :: rest) = Some (DATA_URI_PREFIX ++ d).
Proof.
  intros Hp Hb Hd. simpl. rewrite Hp, Hb.
  destruct d; [contradiction | reflexivity].
Qed.

Lemma extract_responseWith (ps : list Part) (more : list Candidate) :
  extractImageFromResponse (responseWith ps more) =
  match scanParts ps with
  | Some uri => Normal uri
  | None =>
      match ps with
      | p0 :: _ =>
          match text p0 with
          | Some (String c t) => Throw (Error (String c t))
          | _ => Throw (Error NO_IMAGE_GENERATED)
          end
      | [] => Throw (Error NO_IMAGE_GENERATED)
      end
  end.
Proof.
  unfold extractImageFromResponse, responseWith; simpl.
  destruct (scanParts ps); [reflexivity|].
  unfold noImageFound, leadingText; simpl.
  destruct ps as [|p0 ps]; [reflexivity|].
  destruct (text p0) as [[|c t]|]; reflexivity.
Qed.

(** C3, as amended: when the first candidate's parts hold a part whose inline
    data is present and non-empty, and no earlier part does, the extractor
    returns ["data:image/png;base64,"] followed by exactly that part's data,
    whatever MIME type the part reports, whatever parts follow and whatever
    later candidates there are. *)
Theorem first_image_part_is_returned
  (pre post : list Part) (p : Part) (b : Blob) (d : string)
  (more : list Candidate) :
  Forall carriesNoImage pre ->
  inlineData p = Some b ->
  data b = Some d ->
  d <> "" ->
  extractImageFromResponse (responseWith (pre ++ p :: post) more)
  = Normal ("data:image/png;base64," ++ d).
Proof.
  intros Hpre Hp Hb Hd.
  rewrite extract_responseWith, scanParts_skip_prefix by assumption.
  now rewrite (scanParts_hit p b d post Hp Hb Hd).
Qed.

Lemma first_image_part_is_returned_witness :
  extractImageFromResponse
    (responseWith
       ([textPart "Here is the merged picture."] ++
        inlinePart "image/jpeg" "QUJD" :: [inlinePart "image/png" "REVG"]) [])
  = Normal ("data:image/png;base64," ++ "QUJD").
Proof.
  apply (first_image_part_is_returned
           [textPart "Here is the merged picture."] [inlinePart "image/png" "REVG"]
           (inlinePart "image/jpeg" "QUJD")
           {| mimeType := Some "image/jpeg"; data := Some "QUJD" |} "QUJD" []).
  - constructor; [intros b Hb; discriminate | constructor].
  - reflexivity.
  - reflexivity.
  - discriminate.
Defined.

(** C3, as stated, fails: with two inline-data parts the second part's data is
    not what comes back, and an inline-data part with empty data gives no
    Success at all. *)
Lemma inline_part_not_always_returned :
  In (inlinePart "image/jpeg" "QkJC")
     [inlinePart "image/png" "QUFB"; inlinePart "image/jpeg" "QkJC"]
  /\ extractImageFromResponse
       (responseOf [inlinePart "image/png" "QUFB"; inlinePart "image/jpeg" "QkJC"])
     = Normal "data:image/png;base64,QUFB"
  /\ extractImageFromResponse
       (responseOf [inlinePart "image/png" "QUFB"; inlinePart "image/jpeg" "QkJC"])
     <> Normal ("data:image/png;base64," ++ "QkJC")
  /\ extractImageFromResponse (responseOf [inlinePart "image/png" ""])
     = Throw (Error NO_IMAGE_GENERATED).
Proof.
  repeat split.
  - right; left; reflexivity.
  - discriminate.
Qed.

(** C4: with [candidates] absent the extractor throws the fixed no-image
    error, but with [candidates] an empty list it throws the engine's
    TypeError for reading [content] of [undefined], and that is what the whole
    call ends with. *)
Theorem empty_candidate_list_raises_type_error :
  extractImageFromResponse {| candidates := None |} = Throw (Error NO_IMAGE_GENERATED)
  /\ extractImageFromResponse {| candidates := Some [] |}
     = Throw (TypeError "Cannot read properties of undefined (reading 'content')")
  /\ extractImageFromResponse {| candidates := Some [] |}
     <> Throw (Error "No image generated. The model might have refused the request.")
  /\ fst (mergeWith (Some "key") STANDARD [Normal {| candidates := Some [] |}])
     = Throw (TypeError "Cannot read properties of undefined (reading 'content')").
Proof.
  repeat split. discriminate.
Qed.

(** C10: an inline-data part whose data is absent or empty is skipped by the
    scan, wherever it stands; and when no other part carries an image the
    extractor does not succeed but throws the first part's text if that is
    non-empty, and the fixed no-image error otherwise. *)
Theorem empty_inline_data_is_skipped
  (pre post : list Part) (p : Part) (b : Blob) (more : list Candidate) :
  inlineData p = Some b ->
  data b = None \/ data b = Some "" ->
  scanParts (pre ++ p :: post) = scanParts (pre ++ post)
  /\ scanParts [p] = None
  /\ (Forall carriesNoImage pre -> Forall carriesNoImage post ->
      extractImageFromResponse (responseWith (pre ++ p :: post) more)
      = match text (hd p pre) with
        | Some (String c t) => Throw (Error (String c t))
        | _ => Throw (Error NO_IMAGE_GENERATED)
        end).
Proof.
  intros Hp Hb.
  assert (Hskip : carriesNoImage p).
  { intros b' Hb'. rewrite Hp in Hb'. now injection Hb' as <-. }
  split; [|split].
  - induction pre as [|q pre IH]; simpl.
    + rewrite Hp. destruct Hb as [-> | ->]; reflexivity.
    + rewrite IH. reflexivity.
  - now apply scanParts_none; constructor.
  - intros Hpre Hpost.
    rewrite extract_responseWith, scanParts_none.
    + destruct pre; reflexivity.
    + apply Forall_app; split; [assumption | now constructor].
Qed.

Lemma empty_inline_data_is_skipped_witness :
  scanParts ([textPart "I cannot merge these."] ++
             {| text := None;
                inlineData := Some {| mimeType := Some "image/png"; data := Some "" |} |}
             :: [inlinePart "image/png" "QUFB"])
  = scanParts ([textPart "I cannot merge these."] ++ [inlinePart "image/png" "QUFB"])
  /\ extractImageFromResponse
       (responseWith
          ([textPart "I cannot merge these."] ++
           {| text := None;
              inlineData := Some {| mimeType := Some "image/png"; data := Some "" |} |}
           :: []) [])
     = Throw (Error "I cannot merge these.").
Proof.
  split.
  - apply (empty_inline_data_is_skipped
             [textPart "I cannot merge these."] [inlinePart "image/png" "QUFB"]
             _ {| mimeType := Some "image/png"; data := Some "" |} []);
      [reflexivity | right; reflexivity].
  - apply (empty_inline_data_is_skipped
             [textPart "I cannot merge these."] []
             _ {| mimeType := Some "image/png"; data := Some "" |} []);
      [reflexivity | right; reflexivity | | constructor].
    constructor; [intros b Hb; discriminate | constructor].
Defined.

(* ================================================================== *)
(** ** The tier selector and the request builder *)

(** C5: the request built for a tier carries a size hint exactly when the tier
    is High; High selects the high-resolution model with size hint "2K",
    Standard the standard model with none. *)
Theorem size_hint_iff_high_tier
  (image1Base64 image1Mime image2Base64 image2Mime prompt : string)
  (ratio : AspectRatio) (quality : ImageQuality) :
  (imageSize
     (imageConfig
        (requestFor image1Base64 image1Mime image2Base64 image2Mime prompt ratio
           (initialModel quality))) <> None
   <-> quality = HIGH)
  /\ initialModel HIGH = "gemini-3-pro-image-preview"
  /\ imageSize
       (imageConfig
          (requestFor image1Base64 image1Mime image2Base64 image2Mime prompt ratio
             (initialModel HIGH))) = Some "2K"
  /\ initialModel STANDARD = "gemini-2.5-flash-image"
  /\ imageSize
       (imageConfig
          (requestFor image1Base64 image1Mime image2Base64 image2Mime prompt ratio
             (initialModel STANDARD))) = None
  /\ model
       (requestFor image1Base64 image1Mime image2Base64 image2Mime prompt ratio
          (initialModel quality)) = initialModel quality.
Proof.
  repeat split; try reflexivity.
  - destruct quality; [intros H; exfalso; apply H; reflexivity | reflexivity].
  - intros ->; discriminate.
Qed.

(* ================================================================== *)
(** ** The error classifier *)

Lemma statusIs_spec (e : JsError) (n : Z) :
  statusIs e n = true <-> status e = Some n.
Proof.
  unfold statusIs. destruct (status e) as [st|].
  - rewrite Z.eqb_eq. split; congruence.
  - split; discriminate.
Qed.

Lemma messageIncludes_spec (e : JsError) (needle : string) :
  messageIncludes e needle = true
  <-> exists m : string, message e = Some m /\ occursIn needle m.
Proof.
  unfold messageIncludes. destruct (message e) as [m|].
  - rewrite includes_occursIn. split.
    + intros H; exists m; auto.
    + intros (m' & Hm & H); now injection Hm as ->.
  - split; [discriminate | intros (m & Hm & _); discriminate].
Qed.

(** The code's fallback test is the spec's access-denial classification. *)
Lemma isPermissionOrNotFoundError_AccessDenied (e : JsError) :
  isPermissionOrNotFoundError e = true <-> AccessDenied e.
Proof.
  unfold isPermissionOrNotFoundError, AccessDenied.
  rewrite !orb_true_iff, !statusIs_spec, !messageIncludes_spec.
  split.
  - intros [[[H|H]|(m & Hm & H)]|(m & Hm & H)]; auto.
    + right; right; exists m; auto.
    + right; right; exists m; auto.
  - intros [H|[H|(m & Hm & [H|H])]]; auto.
    + left; right; exists m; auto.
    + right; exists m; auto.
Qed.

(** X4: the fallback test holds of an error exactly when its status is 403, its
    status is 404, or its message contains "PERMISSION_DENIED" or "403". *)
Theorem fallback_test_classifies_access_denial (e : JsError) :
  isPermissionOrNotFoundError e = true
  <-> (status e = Some 403%Z
       \/ status e = Some 404%Z
       \/ exists m : string,
            message e = Some m
            /\ ((exists before after : string, m = before ++ "PERMISSION_DENIED" ++ after)
                \/ (exists before after : string, m = before ++ "403" ++ after))).
Proof. exact (isPermissionOrNotFoundError_AccessDenied e). Qed.

Lemma isPermissionDenied_spec (e : JsError) :
  isPermissionDenied e = true
  <-> status e = Some 403%Z
      \/ exists m : string, message e = Some m /\ occursIn "PERMISSION_DENIED" m.
Proof.
  unfold isPermissionDenied.
  now rewrite orb_true_iff, statusIs_spec, messageIncludes_spec.
Qed.

(* ================================================================== *)
(** ** The orchestrator *)

Section ServiceFacts.

Variable World : Type.
Variable generateContent :
  GenerateContentParameters -> World ->
  Completion GenerateContentResponse * World.
Variables image1Base64 image1Mime image2Base64 image2Mime prompt : string.
Variable ratio : AspectRatio.

Local Abbreviation req :=
  (requestFor image1Base64 image1Mime image2Base64 image2Mime prompt ratio).
Local Abbreviation merge :=
  (generateMergedImage World generateContent
     image1Base64 image1Mime image2Base64 image2Mime prompt ratio).
Local Abbreviation tryOnce :=
  (attempt World generateContent
     image1Base64 image1Mime image2Base64 image2Mime prompt ratio).

(** One attempt invokes the capability once, appends the invocation to the
    log, and ends with what the extractor makes of the answer. *)
Lemma attempt_run (mdl : string) (s : Run World) :
  tryOnce mdl s =
  (attemptResult (fst (generateContent (req mdl) (world s))),
   {| world := snd (generateContent (req mdl) (world s));
      calls := calls s ++
               [ {| request := req mdl;
                    reply := fst (generateContent (req mdl) (world s)) |} ] |}).
Proof.
  unfold attempt, bind, makeRequest, invoke, lift.
  destruct (generateContent (req mdl) (world s)) as [[response|e] w]; reflexivity.
Qed.

(** The whole call, once the credential is there, by cases on the first
    attempt. *)
Lemma merge_run (quality : ImageQuality) (apiKey : option string) (w : World) :
  truthy apiKey = true ->
  merge quality apiKey (start w) =
  match attemptResult (fst (generateContent (req (initialModel quality)) w)) with
  | Normal uri =>
      (Normal uri,
       {| world := snd (generateContent (req (initialModel quality)) w);
          calls := [ {| request := req (initialModel quality);
                        reply := fst (generateContent (req (initialModel quality)) w) |} ] |})
  | Throw firstError =>
      if isHighRes quality && isPermissionOrNotFoundError firstError
      then
        (match attemptResult
                 (fst (generateContent (req MODEL_STANDARD)
                         (snd (generateContent (req (initialModel quality)) w)))) with
         | Normal uri => Normal uri
         | Throw e => Throw (rethrowForUi e)
         end,
         {| world := snd (generateContent (req MODEL_STANDARD)
                            (snd (generateContent (req (initialModel quality)) w)));
            calls := [ {| request := req (initialModel quality);
                          reply := fst (generateContent (req (initialModel quality)) w) |};
                       {| request := req MODEL_STANDARD;
                          reply := fst (generateContent (req MODEL_STANDARD)
                                          (snd (generateContent (req (initialModel quality)) w))) |} ] |})
      else
        (Throw (rethrowForUi firstError),
         {| world := snd (generateContent (req (initialModel quality)) w);
            calls := [ {| request := req (initialModel quality);
                          reply := fst (generateContent (req (initialModel quality)) w) |} ] |})
  end.
Proof.
  intros Hkey. unfold generateMergedImage. rewrite Hkey.
  change (negb true) with false; cbv iota.
  unfold innerTry, tryCatch, throw; cbv beta.
  rewrite attempt_run; simpl world; simpl calls.
  destruct (attemptResult (fst (generateContent (req (initialModel quality)) w)))
    as [uri|firstError]; [reflexivity|].
  destruct (isHighRes quality && isPermissionOrNotFoundError firstError);
    [|reflexivity].
  rewrite attempt_run; simpl world; simpl calls.
  destruct (attemptResult _); reflexivity.
Qed.

Lemma isHighRes_HIGH (quality : ImageQuality) :
  isHighRes quality = true <-> quality = HIGH.
Proof. destruct quality; split; (reflexivity || discriminate). Qed.

(** The three content parts every request carries. *)
Local Abbreviation expectedParts :=
  [ {| text :=
         Some ("Merge these two images into one based on this description: "
               ++ prompt ++ ". Ensure the result is a single cohesive image.");
       inlineData := None |};
    {| text := None;
       inlineData := Some {| mimeType := Some image1Mime; data := Some image1Base64 |} |};
    {| text := None;
       inlineData := Some {| mimeType := Some image2Mime; data := Some image2Base64 |} |} ].

(** C6: whatever the images, the instruction, the aspect ratio and the model,
    the request's parts are the framed instruction with the user's text
    verbatim, then image A's inline data, then image B's, and the
    configuration carries the aspect ratio; this holds of every request a call
    sends to the capability. *)
Theorem request_parts_in_fixed_order
  (quality : ImageQuality) (apiKey : option string) (w : World) :
  (forall mdl : string,
      contents (req mdl) = expectedParts
      /\ aspectRatio (imageConfig (req mdl)) = ratio)
  /\ Forall
       (fun c : Call =>
          contents (request c) = expectedParts
          /\ aspectRatio (imageConfig (request c)) = ratio)
       (calls (snd (merge quality apiKey (start w)))).
Proof.
  split; [intros mdl; split; reflexivity|].
  destruct (truthy apiKey) eqn:Hkey.
  - rewrite merge_run by assumption.
    destruct (attemptResult _) as [uri|firstError]; simpl.
    + repeat constructor.
    + destruct (isHighRes quality && isPermissionOrNotFoundError firstError);
        simpl; repeat constructor.
  - unfold generateMergedImage. rewrite Hkey. simpl. constructor.
Qed.

(** C7: without a credential ([process.env.API_KEY] undefined or empty) the
    call throws the missing-key error at once: the world is untouched and no
    request has been sent.  The error is not an access denial for either
    catch, and its text is neither of the other two fixed texts. *)
Theorem missing_credential_fails_before_any_request
  (quality : ImageQuality) (apiKey : option string) (w : World) :
  truthy apiKey = false ->
  merge quality apiKey (start w)
  = (Throw (Error "API Key is missing. Please ensure process.env.API_KEY is set."),
     {| world := w; calls := [] |})
  /\ isPermissionOrNotFoundError (Error API_KEY_MISSING) = false
  /\ isPermissionDenied (Error API_KEY_MISSING) = false
  /\ API_KEY_MISSING <> PERMISSION_DENIED_MESSAGE
  /\ API_KEY_MISSING <> NO_IMAGE_GENERATED.
Proof.
  intros Hkey. unfold generateMergedImage. rewrite Hkey.
  repeat split; discriminate.
Qed.

(** X3: no call invokes the capability more than twice. *)
Theorem at_most_two_invocations
  (quality : ImageQuality) (apiKey : option string) (w : World) :
  length (calls (snd (merge quality apiKey (start w)))) <= 2.
Proof.
  destruct (truthy apiKey) eqn:Hkey.
  - rewrite merge_run by assumption.
    destruct (attemptResult _) as [uri|firstError]; simpl; [lia|].
    destruct (isHighRes quality && isPermissionOrNotFoundError firstError);
      simpl; lia.
  - unfold generateMergedImage. rewrite Hkey. simpl. lia.
Qed.

(** X1: the fallback policy on a rejected first invocation: with the High tier and
    an access denial, exactly one more request is sent, for the Standard model
    and without a size hint; in every other case the first request is the only
    one and the call ends with that rejection, as the outer catch passes it
    on. *)
Theorem fallback_policy_on_rejection
  (quality : ImageQuality) (apiKey : option string) (w : World) (e : JsError) :
  truthy apiKey = true ->
  fst (generateContent (req (initialModel quality)) w) = Throw e ->
  (quality = HIGH /\ AccessDenied e ->
   calls (snd (merge quality apiKey (start w)))
   = [ {| request := req MODEL_HIGH_RES; reply := Throw e |};
       {| request := req MODEL_STANDARD;
          reply := fst (generateContent (req MODEL_STANDARD)
                          (snd (generateContent (req MODEL_HIGH_RES) w))) |} ]
   /\ model (req MODEL_STANDARD) = "gemini-2.5-flash-image"
   /\ imageSize (imageConfig (req MODEL_STANDARD)) = None)
  /\ (~ (quality = HIGH /\ AccessDenied e) ->
      calls (snd (merge quality apiKey (start w)))
      = [ {| request := req (initialModel quality); reply := Throw e |} ]
      /\ fst (merge quality apiKey (start w)) = Throw (rethrowForUi e)).
Proof.
  intros Hkey Hfirst. rewrite merge_run by assumption.
  rewrite Hfirst; simpl attemptResult; cbv iota.
  split.
  - intros [-> Had]. apply isPermissionOrNotFoundError_AccessDenied in Had.
    rewrite Had. change (isHighRes HIGH) with true. simpl andb. cbv iota.
    repeat split.
  - intros Hno.
    destruct (isHighRes quality && isPermissionOrNotFoundError e) eqn:Hcond.
    + exfalso; apply Hno. apply andb_true_iff in Hcond as [Hq Had].
      split; [now apply isHighRes_HIGH | now apply isPermissionOrNotFoundError_AccessDenied].
    + split; reflexivity.
Qed.

(** C2, where the code departs from it: on the High tier, when the first
    invocation succeeds but extraction throws the model's text and that text
    contains "403" or "PERMISSION_DENIED", the inner catch takes the text for an
    access denial and a second request is sent, for the Standard model. *)
Theorem refusal_text_can_trigger_fallback
  (apiKey : option string) (w : World)
  (response : GenerateContentResponse) (t : string) :
  truthy apiKey = true ->
  fst (generateContent (req MODEL_HIGH_RES) w) = Normal response ->
  extractImageFromResponse response = Throw (Error t) ->
  occursIn "403" t \/ occursIn "PERMISSION_DENIED" t ->
  calls (snd (merge HIGH apiKey (start w)))
  = [ {| request := req MODEL_HIGH_RES; reply := Normal response |};
      {| request := req MODEL_STANDARD;
         reply := fst (generateContent (req MODEL_STANDARD)
                         (snd (generateContent (req MODEL_HIGH_RES) w))) |} ].
Proof.
  intros Hkey Hfirst Hextract Htext. rewrite merge_run by assumption.
  change (initialModel HIGH) with MODEL_HIGH_RES.
  rewrite Hfirst; simpl attemptResult. rewrite Hextract.
  assert (Had : isPermissionOrNotFoundError (Error t) = true).
  { apply isPermissionOrNotFoundError_AccessDenied.
    right; right; exists t; split; [reflexivity | tauto]. }
  rewrite Had. reflexivity.
Qed.

(** C8, as amended: when the last invocation of a call was rejected with [e],
    the call ends with the fixed permission-denied error if [e] has status 403
    or a message containing "PERMISSION_DENIED", and with [e] itself, unchanged,
    otherwise (so also when [e] is an access denial only by status 404 or by
    "403" in its message). *)
Theorem terminal_rejection_message
  (quality : ImageQuality) (apiKey : option string) (w : World)
  (earlier : list Call) (p : GenerateContentParameters) (e : JsError) :
  calls (snd (merge quality apiKey (start w)))
  = (earlier ++ [ {| request := p; reply := Throw e |} ])%list ->
  (status e = Some 403%Z
   \/ (exists m : string, message e = Some m /\ occursIn "PERMISSION_DENIED" m) ->
   fst (merge quality apiKey (start w))
   = Throw (Error "Permission denied. The API key does not have access to the generative AI models. Please check that the API key is valid and the API is enabled in your Google Cloud project.")
   /\ errorMessage (Error PERMISSION_DENIED_MESSAGE) = PERMISSION_DENIED_MESSAGE)
  /\ (~ (status e = Some 403%Z
         \/ (exists m : string, message e = Some m /\ occursIn "PERMISSION_DENIED" m)) ->
      fst (merge quality apiKey (start w)) = Throw e).
Proof.
  intros Hcalls.
  assert (Hend : fst (merge quality apiKey (start w)) = Throw (rethrowForUi e)).
  { revert Hcalls. destruct (truthy apiKey) eqn:Hkey.
    - rewrite merge_run by assumption.
      destruct (fst (generateContent (req (initialModel quality)) w))
        as [response1|e1]; simpl attemptResult; cbv beta iota.
      + destruct (extractImageFromResponse response1) as [uri|firstError].
        * simpl. intros Hcalls.
          apply (app_inj_tail []) in Hcalls as [_ Hc]. discriminate.
        * destruct (isHighRes quality && isPermissionOrNotFoundError firstError);
            simpl; intros Hcalls.
          -- apply (app_inj_tail [_]) in Hcalls as [_ Hc].
             injection Hc as _ Hc. rewrite Hc. reflexivity.
          -- apply (app_inj_tail []) in Hcalls as [_ Hc]. discriminate.
      + destruct (isHighRes quality && isPermissionOrNotFoundError e1);
          simpl; intros Hcalls.
        * apply (app_inj_tail [_]) in Hcalls as [_ Hc].
          injection Hc as _ Hc. rewrite Hc. reflexivity.
        * apply (app_inj_tail []) in Hcalls as [_ Hc].
          injection Hc as _ Hc. congruence.
    - unfold generateMergedImage. rewrite Hkey.
      simpl. intros Hcalls. now destruct earlier. }
  rewrite Hend. unfold rethrowForUi. split.
  - intros H. apply isPermissionDenied_spec in H. rewrite H. split; reflexivity.
  - intros H. destruct (isPermissionDenied e) eqn:Hpd; [|reflexivity].
    exfalso; apply H. now apply isPermissionDenied_spec.
Qed.

(** X2: the model's refusal text does reach the caller verbatim when no catch takes
    it for an access error: the first invocation succeeds, extraction throws
    the text, the text does not contain "PERMISSION_DENIED" and, on the High
    tier, does not contain "403" either. *)
Theorem refusal_text_reaches_caller
  (quality : ImageQuality) (apiKey : option string) (w : World)
  (response : GenerateContentResponse) (t : string) :
  truthy apiKey = true ->
  fst (generateContent (req (initialModel quality)) w) = Normal response ->
  extractImageFromResponse response = Throw (Error t) ->
  quality = STANDARD \/ ~ occursIn "403" t ->
  ~ occursIn "PERMISSION_DENIED" t ->
  merge quality apiKey (start w)
  = (Throw (Error t),
     {| world := snd (generateContent (req (initialModel quality)) w);
        calls := [ {| request := req (initialModel quality);
                      reply := Normal response |} ] |}).
Proof.
  intros Hkey Hfirst Hextract H403 Hpd. rewrite merge_run by assumption.
  rewrite Hfirst; simpl attemptResult. rewrite Hextract.
  assert (Hui : rethrowForUi (Error t) = Error t).
  { unfold rethrowForUi. destruct (isPermissionDenied (Error t)) eqn:E; [|reflexivity].
    apply isPermissionDenied_spec in E as [E|(m & Hm & E)]; [discriminate|].
    simpl in Hm. injection Hm as <-. contradiction. }
  assert (Hcond : isHighRes quality && isPermissionOrNotFoundError (Error t) = false).
  { apply andb_false_iff. destruct H403 as [-> | H403]; [left; reflexivity|].
    right. destruct (isPermissionOrNotFoundError (Error t)) eqn:E; [|reflexivity].
    apply isPermissionOrNotFoundError_AccessDenied in E
      as [E|[E|(m & Hm & [E|E])]]; try discriminate;
      simpl in Hm; injection Hm as <-; contradiction. }
  rewrite Hcond, Hui. reflexivity.
Qed.

End ServiceFacts.

(* ================================================================== *)
(** ** The service on concrete inputs *)

(** C1, where the code departs from it: on the High tier a first invocation
    that is not rejected at all, but whose response carries only a text
    mentioning "403", is followed by a second invocation for the Standard
    model. *)
Theorem fallback_without_rejected_invocation :
  map reply
    (calls (snd (mergeWith (Some "key") HIGH
                   [ Normal (responseOf [textPart "Request failed with code 403."]);
                     Normal (responseOf [inlinePart "image/png" "QkJC"]) ])))
  = [ Normal (responseOf [textPart "Request failed with code 403."]);
      Normal (responseOf [inlinePart "image/png" "QkJC"]) ]
  /\ map (fun c : Call => (model (request c), imageSize (imageConfig (request c))))
       (calls (snd (mergeWith (Some "key") HIGH
                      [ Normal (responseOf [textPart "Request failed with code 403."]);
                        Normal (responseOf [inlinePart "image/png" "QkJC"]) ])))
     = [ (MODEL_HIGH_RES, Some "2K"); (MODEL_STANDARD, None) ]
  /\ fst (mergeWith (Some "key") HIGH
            [ Normal (responseOf [textPart "Request failed with code 403."]);
              Normal (responseOf [inlinePart "image/png" "QkJC"]) ])
     = Normal "data:image/png;base64,QkJC".
Proof. repeat split. Qed.

(** C9, where the code departs from it: on the Standard tier a response with
    no image whose first part says "PERMISSION_DENIED: ..." makes the
    extractor throw that text, but the outer catch replaces it, so the caller
    gets the fixed permission-denied message instead of the model's text. *)
Theorem refusal_text_replaced_by_permission_message :
  extractImageFromResponse
    (responseOf [textPart "PERMISSION_DENIED: this content cannot be edited."])
  = Throw (Error "PERMISSION_DENIED: this content cannot be edited.")
  /\ fst (mergeWith (Some "key") STANDARD
            [ Normal (responseOf
                        [textPart "PERMISSION_DENIED: this content cannot be edited."]) ])
     = Throw (Error PERMISSION_DENIED_MESSAGE)
  /\ errorMessage (Error PERMISSION_DENIED_MESSAGE)
     <> "PERMISSION_DENIED: this content cannot be edited.".
Proof. repeat split. discriminate. Qed.

(** C8, as stated, fails: a rejection with status 404 is an access denial for
    the fallback test, yet on the Standard tier the call ends with that
    rejection unchanged and the user reads its own message, not the fixed
    permission-denied text. *)
Lemma not_found_rejection_keeps_its_message :
  AccessDenied (Rejection (Some 404%Z) (Some "Requested entity was not found."))
  /\ fst (mergeWith (Some "key") STANDARD
            [ Throw (Rejection (Some 404%Z) (Some "Requested entity was not found.")) ])
     = Throw (Rejection (Some 404%Z) (Some "Requested entity was not found."))
  /\ errorMessage (Rejection (Some 404%Z) (Some "Requested entity was not found."))
     = "Requested entity was not found."
  /\ errorMessage (Rejection (Some 404%Z) (Some "Requested entity was not found."))
     <> PERMISSION_DENIED_MESSAGE.
Proof.
  repeat split.
  - right; left; reflexivity.
  - discriminate.
Qed.

Lemma terminal_rejection_message_witness :
  fst (mergeWith (Some "key") HIGH
         [ Throw (Rejection (Some 404%Z) (Some "Requested entity was not found."));
           Throw (Rejection (Some 403%Z) (Some "Forbidden")) ])
  = Throw (Error PERMISSION_DENIED_MESSAGE).
Proof.
  apply (terminal_rejection_message Script scripted
           "QUFB" "image/png" "QkJC" "image/jpeg" "put the cat on the sofa" SQUARE
           HIGH (Some "key")
           [ Throw (Rejection (Some 404%Z) (Some "Requested entity was not found."));
             Throw (Rejection (Some 403%Z) (Some "Forbidden")) ]
           [ {| request :=
                  requestFor "QUFB" "image/png" "QkJC" "image/jpeg"
                    "put the cat on the sofa" SQUARE MODEL_HIGH_RES;
                reply :=
                  Throw (Rejection (Some 404%Z) (Some "Requested entity was not found.")) |} ]
           (requestFor "QUFB" "image/png" "QkJC" "image/jpeg"
              "put the cat on the sofa" SQUARE MODEL_STANDARD)
           (Rejection (Some 403%Z) (Some "Forbidden"))).
  - reflexivity.
  - left; reflexivity.
Defined.

Lemma missing_credential_fails_before_any_request_witness :
  mergeWith None HIGH [ Normal (responseOf [inlinePart "image/png" "QUFB"]) ]
  = (Throw (Error "API Key is missing. Please ensure process.env.API_KEY is set."),
     {| world := [ Normal (responseOf [inlinePart "image/png" "QUFB"]) ];
        calls := [] |}).
Proof.
  apply (missing_credential_fails_before_any_request Script scripted
           "QUFB" "image/png" "QkJC" "image/jpeg" "put the cat on the sofa" SQUARE
           HIGH None [ Normal (responseOf [inlinePart "image/png" "QUFB"]) ]).
  reflexivity.
Defined.

Lemma refusal_text_can_trigger_fallback_witness :
  calls (snd (mergeWith (Some "key") HIGH
                [ Normal (responseOf [textPart "I cannot do that: PERMISSION_DENIED."]);
                  Throw (Rejection (Some 500%Z) (Some "Internal error")) ]))
  = [ {| request :=
           requestFor "QUFB" "image/png" "QkJC" "image/jpeg"
             "put the cat on the sofa" SQUARE MODEL_HIGH_RES;
         reply := Normal (responseOf [textPart "I cannot do that: PERMISSION_DENIED."]) |};
      {| request :=
           requestFor "QUFB" "image/png" "QkJC" "image/jpeg"
             "put the cat on the sofa" SQUARE MODEL_STANDARD;
         reply := Throw (Rejection (Some 500%Z) (Some "Internal error")) |} ].
Proof.
  apply (refusal_text_can_trigger_fallback Script scripted
           "QUFB" "image/png" "QkJC" "image/jpeg" "put the cat on the sofa" SQUARE
           (Some "key")
           [ Normal (responseOf [textPart "I cannot do that: PERMISSION_DENIED."]);
             Throw (Rejection (Some 500%Z) (Some "Internal error")) ]
           (responseOf [textPart "I cannot do that: PERMISSION_DENIED."])
           "I cannot do that: PERMISSION_DENIED.").
  - reflexivity.
  - reflexivity.
  - reflexivity.
  - right. exists "I cannot do that: ", ".". reflexivity.
Defined.

Lemma fallback_policy_on_rejection_witness :
  calls (snd (mergeWith (Some "key") HIGH
                [ Throw (Rejection (Some 403%Z) (Some "Forbidden"));
                  Normal (responseOf [inlinePart "image/png" "QkJC"]) ]))
  = [ {| request :=
           requestFor "QUFB" "image/png" "QkJC" "image/jpeg"
             "put the cat on the sofa" SQUARE MODEL_HIGH_RES;
         reply := Throw (Rejection (Some 403%Z) (Some "Forbidden")) |};
      {| request :=
           requestFor "QUFB" "image/png" "QkJC" "image/jpeg"
             "put the cat on the sofa" SQUARE MODEL_STANDARD;
         reply := Normal (responseOf [inlinePart "image/png" "QkJC"]) |} ]
  /\ model (requestFor "QUFB" "image/png" "QkJC" "image/jpeg"
              "put the cat on the sofa" SQUARE MODEL_STANDARD)
     = "gemini-2.5-flash-image"
  /\ imageSize (imageConfig (requestFor "QUFB" "image/png" "QkJC" "image/jpeg"
                               "put the cat on the sofa" SQUARE MODEL_STANDARD))
     = None.
Proof.
  apply (fallback_policy_on_rejection Script scripted
           "QUFB" "image/png" "QkJC" "image/jpeg" "put the cat on the sofa" SQUARE
           HIGH (Some "key")
           [ Throw (Rejection (Some 403%Z) (Some "Forbidden"));
             Normal (responseOf [inlinePart "image/png" "QkJC"]) ]
           (Rejection (Some 403%Z) (Some "Forbidden"))).
  - reflexivity.
  - reflexivity.
  - split; [reflexivity | left; reflexivity].
Defined.

Lemma refusal_text_reaches_caller_witness :
  mergeWith (Some "key") STANDARD
    [ Normal (responseOf [textPart "I cannot merge photos of real people."]) ]
  = (Throw (Error "I cannot merge photos of real people."),
     {| world := [];
        calls :=
          [ {| request :=
                 requestFor "QUFB" "image/png" "QkJC" "image/jpeg"
                   "put the cat on the sofa" SQUARE MODEL_STANDARD;
               reply :=
                 Normal (responseOf [textPart "I cannot merge photos of real people."]) |} ] |}).
Proof.
  apply (refusal_text_reaches_caller Script scripted
           "QUFB" "image/png" "QkJC" "image/jpeg" "put the cat on the sofa" SQUARE
           STANDARD (Some "key")
           [ Normal (responseOf [textPart "I cannot merge photos of real people."]) ]
           (responseOf [textPart "I cannot merge photos of real people."])
           "I cannot merge photos of real people.").
  - reflexivity.
  - reflexivity.
  - reflexivity.
  - left; reflexivity.
  - intros H. apply includes_occursIn in H. discriminate H.
Defined.

(** The spec's end-to-end scenarios A and B.  On the Standard tier a
    response with inline data "AAAA" gives the PNG data URI of "AAAA" after one
    invocation; on the High tier a first rejection with status 403 is followed
    by one invocation of the Standard model, whose inline data "BBBB" gives the
    PNG data URI of "BBBB". *)
Theorem scenarios_A_and_B :
  fst (mergeWith (Some "key") STANDARD
         [ Normal (responseOf [inlinePart "image/png" "AAAA"]) ])
  = Normal "data:image/png;base64,AAAA"
  /\ map (fun c : Call => model (request c))
       (calls (snd (mergeWith (Some "key") STANDARD
                      [ Normal (responseOf [inlinePart "image/png" "AAAA"]) ])))
     = [ MODEL_STANDARD ]
  /\ fst (mergeWith (Some "key") HIGH
            [ Throw (Rejection (Some 403%Z) None);
              Normal (responseOf [inlinePart "image/png" "BBBB"]) ])
     = Normal "data:image/png;base64,BBBB"
  /\ map (fun c : Call => model (request c))
       (calls (snd (mergeWith (Some "key") HIGH
                      [ Throw (Rejection (Some 403%Z) None);
                        Normal (responseOf [inlinePart "image/png" "BBBB"]) ])))
     = [ MODEL_HIGH_RES; MODEL_STANDARD ].
Proof. repeat split. Qed.

(* ================================================================== *)
(** ** More on the extractor and the orchestrator *)

Lemma scanParts_found (ps : list Part) (uri : string) :
  scanParts ps = Some uri ->
  exists (p : Part) (b : Blob) (d : string),
    In p ps /\ inlineData p = Some b /\ data b = Some d /\ d <> ""
    /\ uri = DATA_URI_PREFIX ++ d.
Proof.
  induction ps as [|q ps IH]; simpl; [discriminate|].
  destruct (inlineData q) as [b|] eqn:Hq.
  - destruct (data b) as [[|c d]|] eqn:Hb; simpl.
    + intros H. destruct (IH H) as (p & b' & d' & Hin & Hrest).
      exists p, b', d'; auto.
    + intros H. injection H as <-.
      exists q, b, (String c d). repeat split; auto. discriminate.
    + intros H. destruct (IH H) as (p & b' & d' & Hin & Hrest).
      exists p, b', d'; auto.
  - intros H. destruct (IH H) as (p & b' & d' & Hin & Hrest).
    exists p, b', d'; auto.
Qed.

Lemma noImageFound_throws (response : GenerateContentResponse) :
  exists m : string, noImageFound response = Throw (Error m).
Proof.
  unfold noImageFound. destruct (truthy (leadingText response)).
  - destruct (leadingText response) as [t|]; eauto.
  - eauto.
Qed.

Lemma extract_found (response : GenerateContentResponse) (uri : string) :
  extractImageFromResponse response = Normal uri ->
  exists (cand : Candidate) (more : list Candidate) (ct : Content)
         (ps : list Part) (p : Part) (b : Blob) (d : string),
    candidates response = Some (cand :: more)
    /\ content cand = Some ct
    /\ parts ct = Some ps
    /\ In p ps /\ inlineData p = Some b /\ data b = Some d /\ d <> ""
    /\ uri = DATA_URI_PREFIX ++ d.
Proof.
  unfold extractImageFromResponse.
  destruct (noImageFound_throws response) as [m Hm]. rewrite Hm.
  destruct (candidates response) as [[|cand more]|] eqn:Hc; try discriminate.
  destruct (content cand) as [ct|] eqn:Hct; try discriminate.
  destruct (parts ct) as [ps|] eqn:Hps; try discriminate.
  destruct (scanParts ps) as [found|] eqn:Hscan; try discriminate.
  intros H. injection H as ->.
  destruct (scanParts_found ps uri Hscan) as (p & b & d & Hin & Hp & Hb & Hd & Hu).
  exists cand, more, ct, ps, p, b, d. repeat split; assumption || reflexivity.
Qed.

(** X6: the extractor looks at the first candidate only: replacing the later
    candidates by any others changes nothing, whether it returns or throws. *)
Theorem later_candidates_are_never_consulted
  (cand : Candidate) (more more' : list Candidate) :
  extractImageFromResponse {| candidates := Some (cand :: more) |}
  = extractImageFromResponse {| candidates := Some (cand :: more') |}.
Proof.
  unfold extractImageFromResponse, noImageFound, leadingText; simpl.
  destruct (content cand) as [ct|]; reflexivity.
Qed.

Section ServiceMore.

Variable World : Type.
Variable generateContent :
  GenerateContentParameters -> World ->
  Completion GenerateContentResponse * World.
Variables image1Base64 image1Mime image2Base64 image2Mime prompt : string.
Variable ratio : AspectRatio.

Local Abbreviation req :=
  (requestFor image1Base64 image1Mime image2Base64 image2Mime prompt ratio).
Local Abbreviation merge :=
  (generateMergedImage World generateContent
     image1Base64 image1Mime image2Base64 image2Mime prompt ratio).

(** A call does not look at the invocations logged before it: started from
    any state, it does what it does from a fresh log and appends its own
    invocations to the earlier ones. *)
Lemma merge_frame (quality : ImageQuality) (apiKey : option string) (s : Run World) :
  merge quality apiKey s =
  (fst (merge quality apiKey (start (world s))),
   {| world := world (snd (merge quality apiKey (start (world s))));
      calls := (calls s ++ calls (snd (merge quality apiKey (start (world s)))))%list |}).
Proof.
  unfold generateMergedImage. destruct (truthy apiKey).
  - change (negb true) with false; cbv iota.
    unfold innerTry, tryCatch, throw; cbv beta.
    rewrite !attempt_run; simpl world; simpl calls.
    destruct (attemptResult _) as [uri|firstError]; [reflexivity|].
    destruct (isHighRes quality && isPermissionOrNotFoundError firstError).
    + rewrite !attempt_run; simpl world; simpl calls.
      rewrite <- app_assoc.
      destruct (attemptResult _); reflexivity.
    + reflexivity.
  - unfold throw; simpl. destruct s as [w cs]; simpl. now rewrite app_nil_r.
Qed.


(** X5: an image from the first attempt ends the call: whatever the tier, the
    call returns it after that one invocation. *)
Theorem first_success_is_final
  (quality : ImageQuality) (apiKey : option string) (w : World)
  (response : GenerateContentResponse) (uri : string) :
  truthy apiKey = true ->
  fst (generateContent (req (initialModel quality)) w) = Normal response ->
  extractImageFromResponse response = Normal uri ->
  merge quality apiKey (start w)
  = (Normal uri,
     {| world := snd (generateContent (req (initialModel quality)) w);
        calls := [ {| request := req (initialModel quality);
                      reply := Normal response |} ] |}).
Proof.
  intros Hkey Hfirst Hextract. rewrite merge_run by assumption.
  rewrite Hfirst; simpl attemptResult. rewrite Hextract. reflexivity.
Qed.

(** X9: the fallback attempt decides the call.  On the High tier, after a first
    rejection that is an access denial, the call returns the image extracted
    from the second answer; and when the second invocation is rejected or its
    extraction throws, the call ends with that error as the outer catch
    passes it on, without a third invocation even if that error is an access
    denial too. *)
Theorem fallback_attempt_is_final
  (apiKey : option string) (w : World) (e : JsError) :
  truthy apiKey = true ->
  fst (generateContent (req MODEL_HIGH_RES) w) = Throw e ->
  AccessDenied e ->
  fst (merge HIGH apiKey (start w))
  = match fst (generateContent (req MODEL_STANDARD)
                 (snd (generateContent (req MODEL_HIGH_RES) w))) with
    | Normal response =>
        match extractImageFromResponse response with
        | Normal uri => Normal uri
        | Throw e2 =>
            Throw (if isPermissionDenied e2
                   then Error PERMISSION_DENIED_MESSAGE else e2)
        end
    | Throw e2 =>
        Throw (if isPermissionDenied e2 then Error PERMISSION_DENIED_MESSAGE else e2)
    end
  /\ length (calls (snd (merge HIGH apiKey (start w)))) = 2.
Proof.
  intros Hkey Hfirst Had. rewrite merge_run by assumption.
  change (initialModel HIGH) with MODEL_HIGH_RES.
  rewrite Hfirst; simpl attemptResult; cbv iota.
  apply isPermissionOrNotFoundError_AccessDenied in Had. rewrite Had.
  change (isHighRes HIGH && true) with true; cbv iota.
  split; [|reflexivity]. simpl fst.
  destruct (fst (generateContent (req MODEL_STANDARD) _)) as [response|e2];
    simpl attemptResult; [|reflexivity].
  destruct (extractImageFromResponse response); reflexivity.
Qed.

(** X10: what a call returns is always a PNG-labelled data URI with a
    non-empty payload, and the payload is the inline data of a part of the
    first candidate of the last answer the capability gave. *)
Theorem returned_image_comes_from_last_answer
  (quality : ImageQuality) (apiKey : option string) (w : World) (uri : string) :
  fst (merge quality apiKey (start w)) = Normal uri ->
  exists (d : string) (earlier : list Call) (p : GenerateContentParameters)
         (response : GenerateContentResponse)
         (cand : Candidate) (more : list Candidate) (ct : Content)
         (ps : list Part) (part : Part) (b : Blob),
    uri = "data:image/png;base64," ++ d
    /\ d <> ""
    /\ calls (snd (merge quality apiKey (start w)))
       = (earlier ++ [ {| request := p; reply := Normal response |} ])%list
    /\ candidates response = Some (cand :: more)
    /\ content cand = Some ct
    /\ parts ct = Some ps
    /\ In part ps
    /\ inlineData part = Some b
    /\ data b = Some d.
Proof.
  destruct (truthy apiKey) eqn:Hkey.
  - rewrite merge_run by assumption.
    destruct (fst (generateContent (req (initialModel quality)) w))
      as [response1|e1] eqn:H1; simpl attemptResult; cbv beta iota.
    + destruct (extractImageFromResponse response1) as [uri1|firstError] eqn:Hx.
      * simpl. intros H; injection H as ->.
        destruct (extract_found _ _ Hx)
          as (cand & more & ct & ps & part & b & d & Hc & Hct & Hps & Hin & Hp & Hb & Hd & ->).
        exists d, [], (req (initialModel quality)), response1,
          cand, more, ct, ps, part, b.
        repeat split; assumption.
      * destruct (isHighRes quality && isPermissionOrNotFoundError firstError);
          [|discriminate].
        simpl.
        destruct (fst (generateContent (req MODEL_STANDARD) _))
          as [response2|e2] eqn:H2; simpl attemptResult; [|discriminate].
        destruct (extractImageFromResponse response2) as [uri2|e2] eqn:Hx2;
          [|discriminate].
        intros H; injection H as ->.
        destruct (extract_found _ _ Hx2)
          as (cand & more & ct & ps & part & b & d & Hc & Hct & Hps & Hin & Hp & Hb & Hd & ->).
        exists d, [ {| request := req (initialModel quality);
                       reply := Normal response1 |} ],
          (req MODEL_STANDARD), response2, cand, more, ct, ps, part, b.
        repeat split; assumption.
    + destruct (isHighRes quality && isPermissionOrNotFoundError e1);
        [|discriminate].
      simpl.
      destruct (fst (generateContent (req MODEL_STANDARD) _))
        as [response2|e2] eqn:H2; simpl attemptResult; [|discriminate].
      destruct (extractImageFromResponse response2) as [uri2|e2] eqn:Hx2;
        [|discriminate].
      intros H; injection H as ->.
      destruct (extract_found _ _ Hx2)
        as (cand & more & ct & ps & part & b & d & Hc & Hct & Hps & Hin & Hp & Hb & Hd & ->).
      exists d, [ {| request := req (initialModel quality); reply := Throw e1 |} ],
        (req MODEL_STANDARD), response2, cand, more, ct, ps, part, b.
      repeat split; assumption.
  - unfold generateMergedImage. rewrite Hkey. discriminate.
Qed.

(** X11: a first candidate without [content] (as a blocked generation has)
    makes the extractor read [parts] of [undefined]; on either tier the call
    then ends with the engine's TypeError after that one invocation, with no
    fallback and not with the no-image failure. *)
Theorem candidate_without_content_ends_in_type_error
  (quality : ImageQuality) (apiKey : option string) (w : World)
  (response : GenerateContentResponse) (cand : Candidate) (more : list Candidate) :
  truthy apiKey = true ->
  fst (generateContent (req (initialModel quality)) w) = Normal response ->
  candidates response = Some (cand :: more) ->
  content cand = None ->
  merge quality apiKey (start w)
  = (Throw (TypeError "Cannot read properties of undefined (reading 'parts')"),
     {| world := snd (generateContent (req (initialModel quality)) w);
        calls := [ {| request := req (initialModel quality);
                      reply := Normal response |} ] |}).
Proof.
  intros Hkey Hfirst Hcands Hcontent. rewrite merge_run by assumption.
  rewrite Hfirst; simpl attemptResult.
  unfold extractImageFromResponse. rewrite Hcands, Hcontent.
  change (isPermissionOrNotFoundError (readOfUndefined "parts")) with false.
  rewrite andb_false_r. reflexivity.
Qed.

(** X12: the no-image failure is final on either tier: when the first answer
    makes the extractor throw the fixed no-image error, the call ends with
    that error after the one invocation. *)
Theorem no_image_failure_is_final
  (quality : ImageQuality) (apiKey : option string) (w : World)
  (response : GenerateContentResponse) :
  truthy apiKey = true ->
  fst (generateContent (req (initialModel quality)) w) = Normal response ->
  extractImageFromResponse response
  = Throw (Error "No image generated. The model might have refused the request.") ->
  merge quality apiKey (start w)
  = (Throw (Error "No image generated. The model might have refused the request."),
     {| world := snd (generateContent (req (initialModel quality)) w);
        calls := [ {| request := req (initialModel quality);
                      reply := Normal response |} ] |}).
Proof.
  intros Hkey Hfirst Hextract. rewrite merge_run by assumption.
  rewrite Hfirst; simpl attemptResult. rewrite Hextract.
  match goal with
  | |- context [isPermissionOrNotFoundError ?e] =>
      change (isPermissionOrNotFoundError e) with false
  end.
  rewrite andb_false_r. reflexivity.
Qed.

End ServiceMore.

(* ================================================================== *)
(** ** App.tsx: reading a file *)

Lemma append_assoc' (a b c : string) : (a ++ b) ++ c = a ++ (b ++ c).
Proof. induction a as [|x a IH]; simpl; [reflexivity | now rewrite IH]. Qed.

Lemma includes_comma_cons (c : ascii) (rest : string) :
  includes (String c rest) "," = Ascii.eqb c "," || includes rest ",".
Proof.
  rewrite includes_unfold.
  destruct (String.prefix "," (String c rest)) eqn:P.
  - apply prefix_occurs in P as [after H]. injection H as -> _. reflexivity.
  - destruct (Ascii.eqb c ",") eqn:E; [|reflexivity].
    apply Ascii.eqb_eq in E. subst c.
    assert (String.prefix "," (String "," rest) = true)
      by (apply prefix_occurs; now exists rest).
    congruence.
Qed.

Lemma includes_comma_app (a b : string) :
  includes (a ++ b) "," = includes a "," || includes b ",".
Proof.
  induction a as [|c a IH]; simpl append.
  - reflexivity.
  - rewrite !includes_comma_cons, IH. now rewrite orb_assoc.
Qed.

Lemma split_comma_free (s : string) :
  includes s "," = false -> split "," s = [ s ].
Proof.
  induction s as [|c s IH]; [reflexivity|].
  rewrite includes_comma_cons. intros H. apply orb_false_iff in H as [Hc Hs].
  simpl. rewrite Hc, (IH Hs). reflexivity.
Qed.

Lemma split_at_first_comma (a rest : string) :
  includes a "," = false ->
  split "," (a ++ String "," rest) = a :: split "," rest.
Proof.
  induction a as [|c a IH]; [reflexivity|].
  rewrite includes_comma_cons. intros H. apply orb_false_iff in H as [Hc Ha].
  simpl. rewrite Hc, (IH Ha). reflexivity.
Qed.

(** X13: reading a file whose data URL is "data:<type>;base64,<payload>", with
    no comma in the type or the payload, resolves with exactly the payload;
    a result without any comma resolves with [undefined]; a result that is not
    a string leaves the promise pending, and a read error rejects it. *)
Theorem data_url_payload_is_read (mime payload : string) :
  includes mime "," = false ->
  includes payload "," = false ->
  App.readFileAsBase64
    (App.Loaded (Some ("data:" ++ mime ++ ";base64," ++ payload)))
  = App.Resolved (Some payload)
  /\ (forall s : string,
         includes s "," = false ->
         App.readFileAsBase64 (App.Loaded (Some s)) = App.Resolved None)
  /\ App.readFileAsBase64 (App.Loaded None) = App.Pending
  /\ App.readFileAsBase64 App.Failed = App.Rejected.
Proof.
  intros Hmime Hpayload. repeat split.
  - unfold App.readFileAsBase64.
    change ("data:" ++ mime ++ ";base64," ++ payload)
      with ("data:" ++ mime ++ ";base64" ++ String "," payload).
    rewrite <- (append_assoc' mime), <- (append_assoc' "data:").
    rewrite split_at_first_comma.
    + now rewrite split_comma_free.
    + rewrite !includes_comma_app, Hmime. reflexivity.
  - intros s Hs. unfold App.readFileAsBase64. now rewrite split_comma_free.
Qed.

Lemma data_url_payload_is_read_witness :
  App.readFileAsBase64
    (App.Loaded (Some ("data:" ++ "image/png" ++ ";base64," ++ "iVBORw0KGgo=")))
  = App.Resolved (Some "iVBORw0KGgo=").
Proof.
  apply (data_url_payload_is_read "image/png" "iVBORw0KGgo="); reflexivity.
Defined.

(* ================================================================== *)
(** ** App.tsx: the handlers *)

Lemma arrayIncludes_In (xs : list string) (x : string) :
  arrayIncludes xs x = true <-> In x xs.
Proof.
  unfold arrayIncludes. rewrite existsb_exists. split.
  - intros (y & Hin & Heq). apply String.eqb_eq in Heq. now subst.
  - intros Hin. exists x. split; [assumption | apply String.eqb_refl].
Qed.

Lemma errorMessage_nonempty (err : JsError) : errorMessage err <> "".
Proof.
  unfold errorMessage. destruct (message err) as [[|c m]|]; simpl; discriminate.
Qed.

Lemma trimEnd_empty (s : string) :
  trimEnd s = "" -> forall c rest, s = String c rest -> isWhiteSpace c = true.
Proof.
  intros H c rest ->. simpl in H.
  destruct (trimEnd rest); [|discriminate].
  destruct (isWhiteSpace c); [reflexivity | discriminate].
Qed.

Section AppFacts.

Variable World : Type.
Variable generateContent :
  GenerateContentParameters -> World ->
  Completion GenerateContentResponse * World.
Variable apiKey : option string.

Local Abbreviation Page := (App.Page World).
Local Abbreviation handleGenerate := (App.handleGenerate World generateContent apiKey).
Local Abbreviation handle := (App.handle World generateContent apiKey).
Local Abbreviation session := (App.session World generateContent apiKey).
Local Abbreviation offeredSession := (App.offeredSession World generateContent apiKey).

(** X14: [handleUpload] turns away a file of more than 10 MiB (10485760 bytes)
    and a file whose type is not JPEG, PNG or WebP, the size being checked
    first: the page then only gets the matching error text; no image is
    stored, nothing is read and no object URL is created. *)
Theorem upload_rejects_large_or_foreign_files
  (f : App.File) (slot : App.Slot) (reading : App.Reading) (url : string)
  (pg : Page) :
  (App.size f > 10485760)%Z
  \/ ~ In (App.type f) [ "image/jpeg"; "image/png"; "image/webp" ] ->
  App.handleUpload World f slot reading url pg
  = Some {| App.ui :=
              {| App.image1 := App.image1 (App.ui pg);
                 App.image2 := App.image2 (App.ui pg);
                 App.prompt := App.prompt (App.ui pg);
                 App.config := App.config (App.ui pg);
                 App.isGenerating := App.isGenerating (App.ui pg);
                 App.resultImage := App.resultImage (App.ui pg);
                 App.error :=
                   Some (if (App.size f >? 10485760)%Z
                         then "File size too large. Max 10MB."
                         else "Invalid file type. Please upload JPG, PNG, or WEBP.") |};
            App.service := App.service pg;
            App.objectUrls := App.objectUrls pg;
            App.downloads := App.downloads pg |}.
Proof.
  intros H. unfold App.handleUpload.
  change (MAX_FILE_SIZE_MB * 1024 * 1024)%Z with 10485760%Z.
  destruct (App.size f >? 10485760)%Z eqn:Hsize; [reflexivity|].
  destruct H as [H|H].
  - rewrite Z.gtb_ltb, Z.ltb_ge in Hsize. lia.
  - destruct (arrayIncludes ACCEPTED_IMAGE_TYPES (App.type f)) eqn:Hty.
    + apply arrayIncludes_In in Hty. contradiction.
    + reflexivity.
Qed.

(** X15: a file of at most 10485760 bytes and of an accepted type, whose read
    resolves with the base64 text [b], is stored in the chosen slot with its
    own type as MIME type and the object URL the browser created; the other
    slot, the prompt, the settings and the result stay, the error notice is
    cleared, and the service is not called. *)
Theorem upload_stores_accepted_file
  (f : App.File) (slot : App.Slot) (reading : App.Reading) (url b : string)
  (pg : Page) :
  (App.size f <= 10485760)%Z ->
  In (App.type f) [ "image/jpeg"; "image/png"; "image/webp" ] ->
  App.readFileAsBase64 reading = App.Resolved (Some b) ->
  exists pg' : Page,
    App.handleUpload World f slot reading url pg = Some pg'
    /\ App.imageAt slot (App.ui pg')
       = Some {| App.file := f; App.previewUrl := url; App.base64 := b;
                 App.mimeType := App.type f |}
    /\ App.imageAt (match slot with App.One => App.Two | App.Two => App.One end)
         (App.ui pg')
       = App.imageAt (match slot with App.One => App.Two | App.Two => App.One end)
           (App.ui pg)
    /\ App.error (App.ui pg') = None
    /\ App.prompt (App.ui pg') = App.prompt (App.ui pg)
    /\ App.config (App.ui pg') = App.config (App.ui pg)
    /\ App.resultImage (App.ui pg') = App.resultImage (App.ui pg)
    /\ App.objectUrls pg' = (App.objectUrls pg ++ [ App.Created url ])%list
    /\ App.service pg' = App.service pg.
Proof.
  intros Hsize Hty Hread. unfold App.handleUpload.
  change (MAX_FILE_SIZE_MB * 1024 * 1024)%Z with 10485760%Z.
  assert (Hgt : (App.size f >? 10485760)%Z = false)
    by (rewrite Z.gtb_ltb; apply Z.ltb_ge; assumption).
  rewrite Hgt. apply (arrayIncludes_In ACCEPTED_IMAGE_TYPES) in Hty. rewrite Hty.
  change (negb true) with false. cbv iota.
  rewrite Hread. eexists. split; [reflexivity|].
  destruct slot; repeat split.
Qed.

Lemma merge_requests
  (i1 m1 i2 m2 p : string) (ratio : AspectRatio) (quality : ImageQuality)
  (s : Run World) :
  exists new : list Call,
    calls (snd (generateMergedImage World generateContent i1 m1 i2 m2 p ratio
                  quality apiKey s))
    = (calls s ++ new)%list
    /\ length new <= 2
    /\ (truthy apiKey = true -> 1 <= length new)
    /\ (truthy apiKey = false -> new = [])
    /\ Forall (fun c : Call => exists mdl, request c = requestFor i1 m1 i2 m2 p ratio mdl)
         new.
Proof.
  rewrite merge_frame. simpl snd. simpl calls.
  eexists. split; [reflexivity|].
  destruct (truthy apiKey) eqn:Hkey.
  - rewrite merge_run by assumption.
    destruct (attemptResult _) as [uri|firstError]; simpl.
    + repeat split; try lia; try discriminate; repeat constructor;
        eexists; reflexivity.
    + destruct (isHighRes quality && isPermissionOrNotFoundError firstError); simpl;
        repeat split; try lia; try discriminate; repeat constructor;
        eexists; reflexivity.
  - unfold generateMergedImage. rewrite Hkey. simpl.
    repeat split; try lia; try discriminate; constructor.
Qed.

Lemma merge_result_png
  (i1 m1 i2 m2 p : string) (ratio : AspectRatio) (quality : ImageQuality)
  (s : Run World) (uri : string) :
  fst (generateMergedImage World generateContent i1 m1 i2 m2 p ratio
         quality apiKey s) = Normal uri ->
  pngDataUri uri.
Proof.
  rewrite merge_frame. simpl fst.
  assert (Hx : forall response u,
             extractImageFromResponse response = Normal u -> pngDataUri u).
  { intros response u H.
    destruct (extract_found _ _ H) as (_ & _ & _ & _ & _ & _ & d & _ & _ & _ & _ & _ & _ & Hd & ->).
    exists d. split; [assumption | reflexivity]. }
  destruct (truthy apiKey) eqn:Hkey.
  - rewrite merge_run by assumption.
    destruct (fst (generateContent _ (world s))) as [response1|e1];
      simpl attemptResult; cbv beta iota.
    + destruct (extractImageFromResponse response1) as [u1|firstError] eqn:H1.
      * simpl. intros H; injection H as <-. eauto.
      * destruct (isHighRes quality && isPermissionOrNotFoundError firstError);
          [|discriminate].
        simpl. destruct (fst (generateContent _ _)) as [response2|e2];
          simpl attemptResult; [|discriminate].
        destruct (extractImageFromResponse response2) as [u2|e2] eqn:H2;
          [|discriminate].
        intros H; injection H as <-. eauto.
    + destruct (isHighRes quality && isPermissionOrNotFoundError e1);
        [|discriminate].
      simpl. destruct (fst (generateContent _ _)) as [response2|e2];
        simpl attemptResult; [|discriminate].
      destruct (extractImageFromResponse response2) as [u2|e2] eqn:H2;
        [|discriminate].
      intros H; injection H as <-. eauto.
  - unfold generateMergedImage. rewrite Hkey. discriminate.
Qed.

(** X16: [handleGenerate] does not call the service when an image is missing
    or the description is blank after trimming: the page only gets the
    matching notice (the images are checked first), and the result, the
    images and the settings stay as they were. *)
Theorem generate_needs_both_images_and_a_description (pg : Page) :
  App.image1 (App.ui pg) = None
  \/ App.image2 (App.ui pg) = None
  \/ trim (App.prompt (App.ui pg)) = "" ->
  handleGenerate pg
  = {| App.ui :=
         {| App.image1 := App.image1 (App.ui pg);
            App.image2 := App.image2 (App.ui pg);
            App.prompt := App.prompt (App.ui pg);
            App.config := App.config (App.ui pg);
            App.isGenerating := App.isGenerating (App.ui pg);
            App.resultImage := App.resultImage (App.ui pg);
            App.error :=
              Some match App.image1 (App.ui pg), App.image2 (App.ui pg) with
                   | Some _, Some _ => "Please describe how to merge the images."
                   | _, _ => "Please upload both images."
                   end |};
       App.service := App.service pg;
       App.objectUrls := App.objectUrls pg;
       App.downloads := App.downloads pg |}.
Proof.
  intros H. unfold App.handleGenerate, App.withUi, App.setError.
  destruct (App.image1 (App.ui pg)) as [img1|] eqn:E1; [|reflexivity].
  destruct (App.image2 (App.ui pg)) as [img2|] eqn:E2; [|reflexivity].
  destruct H as [H|[H|H]]; try discriminate.
  rewrite H. reflexivity.
Qed.

(** X17: with both images stored and a description that is not blank,
    [handleGenerate] calls the service once, with the stored images' base64
    text and MIME types, the description untrimmed and the selected aspect
    ratio in every request it sends (one or two with a credential, none
    without).  Afterwards the page is no longer generating and shows either a
    result, a PNG data URI, with no error notice, or no result and an error
    notice with a non-empty text; images, description and settings are
    untouched. *)
Theorem generate_ends_with_result_or_notice
  (pg : Page) (img1 img2 : App.UploadedImage) :
  App.image1 (App.ui pg) = Some img1 ->
  App.image2 (App.ui pg) = Some img2 ->
  trim (App.prompt (App.ui pg)) <> "" ->
  App.isGenerating (App.ui (handleGenerate pg)) = false
  /\ ((exists uri : string,
          App.resultImage (App.ui (handleGenerate pg)) = Some uri
          /\ pngDataUri uri
          /\ App.error (App.ui (handleGenerate pg)) = None)
      \/ (App.resultImage (App.ui (handleGenerate pg)) = None
          /\ exists m : string,
               App.error (App.ui (handleGenerate pg)) = Some m /\ m <> ""))
  /\ (exists new : list Call,
         calls (App.service (handleGenerate pg))
         = (calls (App.service pg) ++ new)%list
         /\ length new <= 2
         /\ (truthy apiKey = true -> 1 <= length new)
         /\ (truthy apiKey = false -> new = [])
         /\ Forall
              (fun c : Call =>
                 contents (request c)
                 = [ textPart
                       ("Merge these two images into one based on this description: "
                        ++ App.prompt (App.ui pg)
                        ++ ". Ensure the result is a single cohesive image.");
                     inlinePart (App.mimeType img1) (App.base64 img1);
                     inlinePart (App.mimeType img2) (App.base64 img2) ]
                 /\ aspectRatio (imageConfig (request c))
                    = App.aspectRatio (App.config (App.ui pg)))
              new)
  /\ App.image1 (App.ui (handleGenerate pg)) = Some img1
  /\ App.image2 (App.ui (handleGenerate pg)) = Some img2
  /\ App.prompt (App.ui (handleGenerate pg)) = App.prompt (App.ui pg)
  /\ App.config (App.ui (handleGenerate pg)) = App.config (App.ui pg)
  /\ App.objectUrls (handleGenerate pg) = App.objectUrls pg.
Proof.
  intros H1 H2 Hprompt. unfold App.handleGenerate. rewrite H1, H2.
  destruct (trim (App.prompt (App.ui pg))) as [|c t] eqn:Htrim; [contradiction|].
  simpl truthy. simpl negb. cbv iota.
  pose proof (merge_requests (App.base64 img1) (App.mimeType img1)
                (App.base64 img2) (App.mimeType img2) (App.prompt (App.ui pg))
                (App.aspectRatio (App.config (App.ui pg)))
                (App.quality (App.config (App.ui pg))) (App.service pg))
    as (new & Hcalls & Hlen & Hmin & Hnone & Hreqs).
  pose proof (merge_result_png (App.base64 img1) (App.mimeType img1)
                (App.base64 img2) (App.mimeType img2) (App.prompt (App.ui pg))
                (App.aspectRatio (App.config (App.ui pg)))
                (App.quality (App.config (App.ui pg))) (App.service pg))
    as Hpng.
  assert (Hsent :
            Forall
              (fun c : Call =>
                 contents (request c)
                 = [ textPart
                       ("Merge these two images into one based on this description: "
                        ++ App.prompt (App.ui pg)
                        ++ ". Ensure the result is a single cohesive image.");
                     inlinePart (App.mimeType img1) (App.base64 img1);
                     inlinePart (App.mimeType img2) (App.base64 img2) ]
                 /\ aspectRatio (imageConfig (request c))
                    = App.aspectRatio (App.config (App.ui pg)))
              new).
  { eapply Forall_impl; [|exact Hreqs]. intros sent [mdl ->]. split; reflexivity. }
  destruct (generateMergedImage _ _ _ _ _ _ _ _ _ _ _) as [[result|err] s'];
    simpl in Hcalls, Hpng |- *.
  - split; [reflexivity|]. split.
    + left. exists result. repeat split. now apply Hpng.
    + split; [exists new; repeat split; assumption | repeat split; assumption].
  - split; [reflexivity|]. split.
    + right. split; [reflexivity|]. exists (errorMessage err).
      split; [reflexivity | apply errorMessage_nonempty].
    + split; [exists new; repeat split; assumption | repeat split; assumption].
Qed.

Lemma requestFor_carriesAcceptedImages
  (img1 img2 : App.UploadedImage) (p : string) (ratio : AspectRatio) (mdl : string) :
  acceptedImage img1 -> acceptedImage img2 ->
  carriesAcceptedImages
    (requestFor (App.base64 img1) (App.mimeType img1)
       (App.base64 img2) (App.mimeType img2) p ratio mdl).
Proof.
  intros (_ & H1 & _) (_ & H2 & _).
  exists (mergeInstruction p), (App.mimeType img1), (App.base64 img1),
    (App.mimeType img2), (App.base64 img2).
  repeat split; assumption.
Qed.

Local Ltac splits := repeat match goal with |- _ /\ _ => split end.

Lemma handleUpload_wellFormed
  (f : App.File) (slot : App.Slot) (reading : App.Reading) (url : string)
  (pg pg' : Page) :
  wellFormedPage pg ->
  App.handleUpload World f slot reading url pg = Some pg' ->
  wellFormedPage pg'.
Proof.
  intros (Hi1 & Hi2 & Hcalls & Hres & Herr & Hdl). unfold App.handleUpload.
  change (MAX_FILE_SIZE_MB * 1024 * 1024)%Z with 10485760%Z.
  destruct (App.size f >? 10485760)%Z eqn:Hsize.
  - intros H; injection H as <-.
    unfold wellFormedPage; simpl. splits; auto. discriminate.
  - destruct (arrayIncludes ACCEPTED_IMAGE_TYPES (App.type f)) eqn:Hty.
    + change (negb true) with false; cbv iota.
      assert (Hsz : (App.size f <= 10485760)%Z)
        by (rewrite Z.gtb_ltb, Z.ltb_ge in Hsize; assumption).
      assert (Htyp : In (App.type f) [ "image/jpeg"; "image/png"; "image/webp" ])
        by now apply (arrayIncludes_In ACCEPTED_IMAGE_TYPES).
      destruct (App.readFileAsBase64 reading) as [[b|]| |];
        intros H; try discriminate; injection H as <-.
      * unfold wellFormedPage.
        destruct slot; simpl; splits; auto; try discriminate;
          unfold acceptedImage; simpl; splits; auto.
      * unfold wellFormedPage; simpl. splits; auto. discriminate.
      * unfold wellFormedPage. splits; auto.
    + change (negb false) with true; cbv iota.
      intros H; injection H as <-.
      unfold wellFormedPage; simpl. splits; auto. discriminate.
Qed.

Lemma revokePreview_ui (image : option App.UploadedImage) (pg : Page) :
  App.ui (App.revokePreview World image pg) = App.ui pg
  /\ App.service (App.revokePreview World image pg) = App.service pg
  /\ App.downloads (App.revokePreview World image pg) = App.downloads pg.
Proof.
  unfold App.revokePreview. destruct image as [img|]; [|auto].
  destruct (truthy (Some (App.previewUrl img))); auto.
Qed.

Lemma handleGenerate_wellFormed (pg : Page) :
  wellFormedPage pg -> wellFormedPage (handleGenerate pg).
Proof.
  intros (Hi1 & Hi2 & Hcalls & Hres & Herr & Hdl). unfold App.handleGenerate.
  destruct (App.image1 (App.ui pg)) as [img1|] eqn:E1.
  2: { unfold wellFormedPage; simpl. rewrite E1. splits; auto. discriminate. }
  destruct (App.image2 (App.ui pg)) as [img2|] eqn:E2.
  2: { unfold wellFormedPage; simpl. rewrite E1, E2. splits; auto. discriminate. }
  destruct (negb (truthy (Some (trim (App.prompt (App.ui pg)))))).
  { unfold wellFormedPage; simpl. rewrite E1, E2. splits; auto. discriminate. }
  pose proof (merge_requests (App.base64 img1) (App.mimeType img1)
                (App.base64 img2) (App.mimeType img2) (App.prompt (App.ui pg))
                (App.aspectRatio (App.config (App.ui pg)))
                (App.quality (App.config (App.ui pg))) (App.service pg))
    as (new & Hnew & _ & _ & _ & Hreqs).
  pose proof (merge_result_png (App.base64 img1) (App.mimeType img1)
                (App.base64 img2) (App.mimeType img2) (App.prompt (App.ui pg))
                (App.aspectRatio (App.config (App.ui pg)))
                (App.quality (App.config (App.ui pg))) (App.service pg))
    as Hpng.
  assert (Hsent : Forall (fun c : Call => carriesAcceptedImages (request c))
                    (calls (App.service pg) ++ new)).
  { apply Forall_app; split; [assumption|].
    eapply Forall_impl; [|exact Hreqs]. intros sent [mdl ->].
    now apply requestFor_carriesAcceptedImages. }
  destruct (generateMergedImage _ _ _ _ _ _ _ _ _ _ _) as [[result|err] s'];
    simpl in Hnew, Hpng; unfold wellFormedPage; simpl; rewrite E1, E2, Hnew.
  - splits; auto. discriminate.
  - splits; auto. intros H; injection H as H.
    now apply errorMessage_nonempty in H.
Qed.

Lemma handle_wellFormed (e : App.Event) (pg pg' : Page) :
  wellFormedPage pg -> handle e pg = Some pg' -> wellFormedPage pg'.
Proof.
  intros Hwf. destruct e; simpl.
  - now apply handleUpload_wellFormed.
  - intros H; injection H as <-.
    destruct Hwf as (Hi1 & Hi2 & Hcalls & Hres & Herr & Hdl).
    unfold App.handleRemoveImage, wellFormedPage.
    destruct slot; simpl;
      match goal with
      | |- context [App.revokePreview World ?i pg] =>
          destruct (revokePreview_ui i pg) as (-> & -> & ->)
      end; splits; auto.
  - intros H; injection H as <-. exact Hwf.
  - intros H; injection H as <-. exact Hwf.
  - intros H; injection H as <-. exact Hwf.
  - intros H; injection H as <-. now apply handleGenerate_wellFormed.
  - intros H; injection H as <-.
    destruct Hwf as (Hi1 & Hi2 & Hcalls & Hres & Herr & Hdl).
    unfold App.handleDownload.
    destruct (App.resultImage (App.ui pg)) as [[|c rest]|] eqn:Er;
      unfold wellFormedPage; simpl; rewrite ?Er; splits; auto.
    apply Forall_app; split; [assumption|]. repeat constructor. exact Hres.
  - intros H; injection H as <-.
    destruct Hwf as (Hi1 & Hi2 & Hcalls & Hres & Herr & Hdl).
    unfold App.handleReset, wellFormedPage; simpl.
    destruct (revokePreview_ui (App.image2 (App.ui pg))
                (App.revokePreview World (App.image1 (App.ui pg)) pg))
      as (_ & -> & ->).
    destruct (revokePreview_ui (App.image1 (App.ui pg)) pg) as (_ & -> & ->).
    splits; auto. discriminate.
Qed.

Lemma session_wellFormed (events : list App.Event) (pg pg' : Page) :
  wellFormedPage pg -> session events pg = Some pg' -> wellFormedPage pg'.
Proof.
  revert pg. induction events as [|e events IH]; simpl; intros pg Hwf.
  - intros H; now injection H as <-.
  - destruct (handle e pg) as [next|] eqn:He; [|discriminate].
    apply IH. now apply (handle_wellFormed e pg).
Qed.

Lemma initialPage_wellFormed (w : World) : wellFormedPage (App.initialPage World w).
Proof.
  unfold wellFormedPage; simpl. splits; auto. discriminate.
Qed.



Lemma liveUrls_snoc (log : list App.UrlEvent) (e : App.UrlEvent) :
  App.liveUrls (log ++ [ e ])
  = match e with
    | App.Created u => u :: App.liveUrls log
    | App.Revoked u => App.removeOne u (App.liveUrls log)
    end.
Proof. unfold App.liveUrls. rewrite fold_left_app. reflexivity. Qed.

Lemma removeOne_In (u : string) (urls : list string) :
  In u urls -> Permutation urls (u :: App.removeOne u urls).
Proof.
  induction urls as [|v rest IH]; simpl; [contradiction|].
  destruct (String.eqb u v) eqn:E.
  - apply String.eqb_eq in E. subst v. intros _. reflexivity.
  - intros [->|Hin]; [rewrite String.eqb_refl in E; discriminate|].
    etransitivity; [apply perm_skip, (IH Hin) | apply perm_swap].
Qed.

Lemma removeOne_perm (u : string) (urls rest : list string) :
  Permutation urls (u :: rest) -> Permutation (App.removeOne u urls) rest.
Proof.
  intros H. apply (Permutation_cons_inv (a := u)).
  etransitivity; [|exact H]. symmetry. apply removeOne_In.
  apply (Permutation_in u (Permutation_sym H)). now left.
Qed.

Lemma truthy_nonempty (s : string) : s <> "" -> truthy (Some s) = true.
Proof. destruct s; [contradiction | reflexivity]. Qed.

Lemma revokePreview_live (img : App.UploadedImage) (pg : Page) :
  App.previewUrl img <> "" ->
  App.liveUrls (App.objectUrls (App.revokePreview World (Some img) pg))
  = App.removeOne (App.previewUrl img) (App.liveUrls (App.objectUrls pg)).
Proof.
  intros H. unfold App.revokePreview. rewrite (truthy_nonempty _ H).
  simpl. now rewrite liveUrls_snoc.
Qed.

Lemma withUi_parts (f : App.State -> App.State) (pg : Page) :
  App.ui (App.withUi World f pg) = f (App.ui pg)
  /\ App.objectUrls (App.withUi World f pg) = App.objectUrls pg.
Proof. split; reflexivity. Qed.

Lemma handleRemoveImage_balanced (slot : App.Slot) (pg : Page) :
  urlsBalanced pg -> urlsBalanced (App.handleRemoveImage World slot pg).
Proof.
  intros [Hperm Hne]. unfold urlsBalanced, App.handleRemoveImage in *.
  destruct slot;
    match goal with
    | |- context [App.withUi World ?f ?p] =>
        destruct (withUi_parts f p) as [-> ->]
    end.
  - destruct (revokePreview_ui (App.image1 (App.ui pg)) pg) as (-> & _).
    unfold App.previewUrls in *. simpl.
    destruct (App.image1 (App.ui pg)) as [img|] eqn:E1.
    + simpl in Hperm, Hne. inversion Hne as [|? ? Hu Hrest]; subst.
      rewrite revokePreview_live by assumption.
      split; [now apply removeOne_perm | assumption].
    + simpl in *. auto.
  - destruct (revokePreview_ui (App.image2 (App.ui pg)) pg) as (-> & _).
    unfold App.previewUrls in *. simpl.
    destruct (App.image2 (App.ui pg)) as [img|] eqn:E2.
    + assert (Hu : App.previewUrl img <> "").
      { apply Forall_app in Hne as [_ Hne]. now inversion Hne. }
      rewrite revokePreview_live by assumption.
      rewrite app_nil_r. split.
      * apply removeOne_perm. etransitivity; [exact Hperm|].
        symmetry. apply Permutation_cons_append.
      * now apply Forall_app in Hne as [Hne _].
    + simpl in *. auto.
Qed.

Lemma handleReset_balanced (pg : Page) :
  urlsBalanced pg ->
  urlsBalanced (App.handleReset World pg)
  /\ App.previewUrls (App.ui (App.handleReset World pg)) = [].
Proof.
  intros [Hperm Hne]. split; [|reflexivity].
  unfold urlsBalanced, App.handleReset.
  match goal with
  | |- context [App.withUi World ?f ?p] =>
      destruct (withUi_parts f p) as [-> ->]
  end.
  split; [|constructor].
  change (App.previewUrls _) with (@nil string).
  unfold App.previewUrls in Hperm, Hne.
  destruct (App.image1 (App.ui pg)) as [img1|];
    destruct (App.image2 (App.ui pg)) as [img2|]; simpl in Hperm, Hne.
  - inversion Hne as [|? ? Hu1 Hne']; subst. inversion Hne' as [|? ? Hu2 _]; subst.
    rewrite !revokePreview_live by assumption.
    now apply removeOne_perm, removeOne_perm.
  - inversion Hne as [|? ? Hu1 _]; subst.
    change (App.revokePreview World None (App.revokePreview World (Some img1) pg))
      with (App.revokePreview World (Some img1) pg).
    rewrite revokePreview_live by assumption.
    now apply removeOne_perm.
  - inversion Hne as [|? ? Hu2 _]; subst.
    rewrite revokePreview_live by assumption.
    now apply removeOne_perm.
  - exact Hperm.
Qed.

Lemma handleGenerate_urls (pg : Page) :
  App.objectUrls (handleGenerate pg) = App.objectUrls pg
  /\ App.previewUrls (App.ui (handleGenerate pg)) = App.previewUrls (App.ui pg).
Proof.
  unfold App.handleGenerate, App.previewUrls.
  destruct (App.image1 (App.ui pg)) as [img1|] eqn:E1; [|simpl; rewrite E1; auto].
  destruct (App.image2 (App.ui pg)) as [img2|] eqn:E2; [|simpl; rewrite E1, E2; auto].
  destruct (negb _); [simpl; rewrite E1, E2; auto|].
  destruct (generateMergedImage _ _ _ _ _ _ _ _ _ _ _) as [[result|err] s'];
    simpl; rewrite E1, E2; auto.
Qed.

Lemma handleUpload_balanced
  (f : App.File) (slot : App.Slot) (reading : App.Reading) (url : string)
  (pg pg' : Page) :
  urlsBalanced pg ->
  App.imageAt slot (App.ui pg) = None ->
  url <> "" ->
  App.handleUpload World f slot reading url pg = Some pg' ->
  urlsBalanced pg'.
Proof.
  intros [Hperm Hne] Hempty Hurl. unfold App.handleUpload.
  destruct (_ >? _)%Z; [intros H; injection H as <-; split; assumption|].
  destruct (negb _); [intros H; injection H as <-; split; assumption|].
  destruct (App.readFileAsBase64 reading) as [[b|]| |];
    intros H; try discriminate; injection H as <-; try (split; assumption).
  unfold urlsBalanced, App.previewUrls in *.
  destruct slot; simpl in Hempty; simpl; rewrite liveUrls_snoc.
  - rewrite Hempty in Hperm, Hne. simpl in Hperm, Hne.
    split; [now apply perm_skip | now constructor].
  - rewrite Hempty in Hperm, Hne. rewrite app_nil_r in Hperm, Hne.
    split.
    + etransitivity; [apply perm_skip, Hperm | apply Permutation_cons_append].
    + apply Forall_app; split; [assumption | now repeat constructor].
Qed.

Lemma handle_balanced (e : App.Event) (pg pg' : Page) :
  urlsBalanced pg ->
  App.offered e (App.ui pg) = true ->
  match e with
  | App.Upload _ _ _ url => url <> ""
  | _ => True
  end ->
  handle e pg = Some pg' ->
  urlsBalanced pg'.
Proof.
  intros Hb Hoffered Hurl. destruct e; simpl.
  - simpl in Hoffered.
    destruct (App.imageAt slot (App.ui pg)) eqn:Hslot; [discriminate|].
    now apply handleUpload_balanced.
  - intros H; injection H as <-. now apply handleRemoveImage_balanced.
  - intros H; injection H as <-. exact Hb.
  - intros H; injection H as <-. exact Hb.
  - intros H; injection H as <-. exact Hb.
  - intros H; injection H as <-. unfold urlsBalanced.
    destruct (handleGenerate_urls pg) as [-> ->]. exact Hb.
  - intros H; injection H as <-. unfold App.handleDownload.
    destruct (App.resultImage (App.ui pg)) as [[|c rest]|]; exact Hb.
  - intros H; injection H as <-. now apply handleReset_balanced.
Qed.


End AppFacts.

(* ================================================================== *)
(** ** The added statements on concrete inputs *)

Lemma first_success_is_final_witness :
  mergeWith (Some "key") HIGH [ Normal (responseOf [ inlinePart "image/jpeg" "QUFB" ]) ]
  = (Normal "data:image/png;base64,QUFB",
     {| world := [];
        calls :=
          [ {| request :=
                 requestFor "QUFB" "image/png" "QkJC" "image/jpeg"
                   "put the cat on the sofa" SQUARE MODEL_HIGH_RES;
               reply := Normal (responseOf [ inlinePart "image/jpeg" "QUFB" ]) |} ] |}).
Proof.
  apply (first_success_is_final Script scripted
           "QUFB" "image/png" "QkJC" "image/jpeg" "put the cat on the sofa" SQUARE
           HIGH (Some "key")
           [ Normal (responseOf [ inlinePart "image/jpeg" "QUFB" ]) ]
           (responseOf [ inlinePart "image/jpeg" "QUFB" ])
           "data:image/png;base64,QUFB");
    reflexivity.
Defined.

Lemma fallback_attempt_is_final_witness :
  fst (mergeWith (Some "key") HIGH
         [ Throw (Rejection (Some 404%Z) None);
           Throw (Rejection (Some 404%Z) (Some "Requested entity was not found."));
           Normal (responseOf [ inlinePart "image/png" "QkJC" ]) ])
  = Throw (Rejection (Some 404%Z) (Some "Requested entity was not found."))
  /\ length
       (calls (snd (mergeWith (Some "key") HIGH
                      [ Throw (Rejection (Some 404%Z) None);
                        Throw (Rejection (Some 404%Z)
                                 (Some "Requested entity was not found."));
                        Normal (responseOf [ inlinePart "image/png" "QkJC" ]) ])))
     = 2.
Proof.
  apply (fallback_attempt_is_final Script scripted
           "QUFB" "image/png" "QkJC" "image/jpeg" "put the cat on the sofa" SQUARE
           (Some "key")
           [ Throw (Rejection (Some 404%Z) None);
             Throw (Rejection (Some 404%Z) (Some "Requested entity was not found."));
             Normal (responseOf [ inlinePart "image/png" "QkJC" ]) ]
           (Rejection (Some 404%Z) None)).
  - reflexivity.
  - reflexivity.
  - right; left; reflexivity.
Defined.

Lemma returned_image_comes_from_last_answer_witness :
  exists (d : string) (earlier : list Call) (p : GenerateContentParameters)
         (response : GenerateContentResponse)
         (cand : Candidate) (more : list Candidate) (ct : Content)
         (ps : list Part) (part : Part) (b : Blob),
    "data:image/png;base64,QkJC" = "data:image/png;base64," ++ d
    /\ d <> ""
    /\ calls (snd (mergeWith (Some "key") HIGH deniedThenImage))
       = (earlier ++ [ {| request := p; reply := Normal response |} ])%list
    /\ candidates response = Some (cand :: more)
    /\ content cand = Some ct
    /\ parts ct = Some ps
    /\ In part ps
    /\ inlineData part = Some b
    /\ data b = Some d.
Proof.
  apply (returned_image_comes_from_last_answer Script scripted
           "QUFB" "image/png" "QkJC" "image/jpeg" "put the cat on the sofa" SQUARE
           HIGH (Some "key") deniedThenImage "data:image/png;base64,QkJC").
  reflexivity.
Defined.

Lemma candidate_without_content_ends_in_type_error_witness :
  mergeWith (Some "key") HIGH
    [ Normal {| candidates := Some [ {| content := None |} ] |};
      Normal (responseOf [ inlinePart "image/png" "QkJC" ]) ]
  = (Throw (TypeError "Cannot read properties of undefined (reading 'parts')"),
     {| world := [ Normal (responseOf [ inlinePart "image/png" "QkJC" ]) ];
        calls :=
          [ {| request :=
                 requestFor "QUFB" "image/png" "QkJC" "image/jpeg"
                   "put the cat on the sofa" SQUARE MODEL_HIGH_RES;
               reply := Normal {| candidates := Some [ {| content := None |} ] |} |} ] |}).
Proof.
  apply (candidate_without_content_ends_in_type_error Script scripted
           "QUFB" "image/png" "QkJC" "image/jpeg" "put the cat on the sofa" SQUARE
           HIGH (Some "key")
           [ Normal {| candidates := Some [ {| content := None |} ] |};
             Normal (responseOf [ inlinePart "image/png" "QkJC" ]) ]
           {| candidates := Some [ {| content := None |} ] |}
           {| content := None |} []);
    reflexivity.
Defined.

Lemma no_image_failure_is_final_witness :
  mergeWith (Some "key") HIGH
    [ Normal {| candidates := None |};
      Normal (responseOf [ inlinePart "image/png" "QkJC" ]) ]
  = (Throw (Error "No image generated. The model might have refused the request."),
     {| world := [ Normal (responseOf [ inlinePart "image/png" "QkJC" ]) ];
        calls :=
          [ {| request :=
                 requestFor "QUFB" "image/png" "QkJC" "image/jpeg"
                   "put the cat on the sofa" SQUARE MODEL_HIGH_RES;
               reply := Normal {| candidates := None |} |} ] |}).
Proof.
  apply (no_image_failure_is_final Script scripted
           "QUFB" "image/png" "QkJC" "image/jpeg" "put the cat on the sofa" SQUARE
           HIGH (Some "key")
           [ Normal {| candidates := None |};
             Normal (responseOf [ inlinePart "image/png" "QkJC" ]) ]
           {| candidates := None |});
    reflexivity.
Defined.

Lemma upload_rejects_large_or_foreign_files_witness :
  App.error
    (App.ui
       (match
          App.handleUpload Script
            {| App.size := 10485761; App.type := "image/png" |} App.One
            (App.Loaded (Some "data:image/png;base64,QUFB")) "blob:3"
            (App.initialPage Script [])
        with
        | Some pg => pg
        | None => App.initialPage Script []
        end))
  = Some "File size too large. Max 10MB.".
Proof.
  rewrite (upload_rejects_large_or_foreign_files Script
             {| App.size := 10485761; App.type := "image/png" |} App.One
             (App.Loaded (Some "data:image/png;base64,QUFB")) "blob:3"
             (App.initialPage Script [])
             (or_introl eq_refl)).
  reflexivity.
Defined.

Lemma upload_stores_accepted_file_witness :
  exists pg' : App.Page Script,
    App.handleUpload Script jpegFile App.Two
      (App.Loaded (Some "data:image/jpeg;base64,QkJC")) "blob:2"
      (App.initialPage Script []) = Some pg'
    /\ App.imageAt App.Two (App.ui pg')
       = Some {| App.file := jpegFile; App.previewUrl := "blob:2";
                 App.base64 := "QkJC"; App.mimeType := "image/jpeg" |}
    /\ App.imageAt App.One (App.ui pg') = None
    /\ App.error (App.ui pg') = None
    /\ App.prompt (App.ui pg') = ""
    /\ App.config (App.ui pg')
       = {| App.aspectRatio := SQUARE; App.quality := STANDARD |}
    /\ App.resultImage (App.ui pg') = None
    /\ App.objectUrls pg' = [ App.Created "blob:2" ]
    /\ App.service pg' = start [].
Proof.
  apply (upload_stores_accepted_file Script jpegFile App.Two
           (App.Loaded (Some "data:image/jpeg;base64,QkJC")) "blob:2" "QkJC"
           (App.initialPage Script [])).
  - discriminate.
  - left; reflexivity.
  - reflexivity.
Defined.

Lemma generate_needs_both_images_and_a_description_witness :
  App.service
    (App.handleGenerate Script scripted (Some "key")
       (App.withUi Script (App.setPrompt "   ") readyPage))
  = start deniedThenImage
  /\ App.error
       (App.ui
          (App.handleGenerate Script scripted (Some "key")
             (App.withUi Script (App.setPrompt "   ") readyPage)))
     = Some "Please describe how to merge the images.".
Proof.
  rewrite (generate_needs_both_images_and_a_description Script scripted (Some "key")
             (App.withUi Script (App.setPrompt "   ") readyPage)
             (or_intror (or_intror eq_refl))).
  split; reflexivity.
Defined.

Lemma generate_ends_with_result_or_notice_witness :
  App.isGenerating
    (App.ui (App.handleGenerate Script scripted (Some "key") readyPage))
  = false.
Proof.
  apply (generate_ends_with_result_or_notice Script scripted (Some "key") readyPage
           {| App.file := pngFile; App.previewUrl := "blob:1";
              App.base64 := "QUFB"; App.mimeType := "image/png" |}
           {| App.file := jpegFile; App.previewUrl := "blob:2";
              App.base64 := "QkJC"; App.mimeType := "image/jpeg" |}).
  - reflexivity.
  - reflexivity.
  - discriminate.
Defined.




(* ================================================================== *)
(** ** App.tsx: what the user reads after a failed generation *)

Section NoticeFacts.

Variable World : Type.
Variable generateContent :
  GenerateContentParameters -> World ->
  Completion GenerateContentResponse * World.
Variable apiKey : option string.

Local Abbreviation handleGenerate := (App.handleGenerate World generateContent apiKey).

(** X8: without a credential, generating from a page with both images and a
    description sends nothing to the capability and shows the missing-key
    text as the error notice, with no result. *)
Theorem generate_without_credential_shows_missing_key
  (pg : App.Page World) (img1 img2 : App.UploadedImage) :
  App.image1 (App.ui pg) = Some img1 ->
  App.image2 (App.ui pg) = Some img2 ->
  trim (App.prompt (App.ui pg)) <> "" ->
  truthy apiKey = false ->
  App.error (App.ui (handleGenerate pg))
  = Some "API Key is missing. Please ensure process.env.API_KEY is set."
  /\ App.resultImage (App.ui (handleGenerate pg)) = None
  /\ App.isGenerating (App.ui (handleGenerate pg)) = false
  /\ App.service (handleGenerate pg) = App.service pg.
Proof.
  intros H1 H2 Hprompt Hkey. unfold App.handleGenerate. rewrite H1, H2.
  destruct (trim (App.prompt (App.ui pg))) as [|c t]; [contradiction|].
  change (negb (truthy (Some (String c t)))) with false. cbv iota.
  unfold generateMergedImage. rewrite Hkey.
  repeat split.
Qed.

(** X21: on the Standard tier, when the capability rejects the request with
    [e], the error notice is the fixed permission-denied text if [e] has status
    403 or "PERMISSION_DENIED" in its message, else [e]'s own message if it has
    a non-empty one, else "Failed to generate image. Please try again."; no
    result is shown and the page is no longer generating. *)
Theorem notice_after_rejected_generation
  (pg : App.Page World) (img1 img2 : App.UploadedImage) (e : JsError) :
  App.image1 (App.ui pg) = Some img1 ->
  App.image2 (App.ui pg) = Some img2 ->
  trim (App.prompt (App.ui pg)) <> "" ->
  truthy apiKey = true ->
  App.quality (App.config (App.ui pg)) = STANDARD ->
  fst (generateContent
         (requestFor (App.base64 img1) (App.mimeType img1)
            (App.base64 img2) (App.mimeType img2) (App.prompt (App.ui pg))
            (App.aspectRatio (App.config (App.ui pg))) MODEL_STANDARD)
         (world (App.service pg)))
  = Throw e ->
  App.error (App.ui (handleGenerate pg))
  = Some (if isPermissionDenied e
          then "Permission denied. The API key does not have access to the generative AI models. Please check that the API key is valid and the API is enabled in your Google Cloud project."
          else match message e with
               | Some (String c m) => String c m
               | _ => "Failed to generate image. Please try again."
               end)
  /\ App.resultImage (App.ui (handleGenerate pg)) = None
  /\ App.isGenerating (App.ui (handleGenerate pg)) = false.
Proof.
  intros H1 H2 Hprompt Hkey Hq Hreply. unfold App.handleGenerate. rewrite H1, H2.
  destruct (trim (App.prompt (App.ui pg))) as [|c t]; [contradiction|].
  change (negb (truthy (Some (String c t)))) with false. cbv iota.
  rewrite merge_frame, merge_run by assumption.
  rewrite Hq. change (initialModel STANDARD) with MODEL_STANDARD.
  rewrite Hreply. simpl attemptResult. cbv beta iota.
  change (isHighRes STANDARD) with false. simpl andb. cbv iota.
  simpl. unfold rethrowForUi.
  destruct (isPermissionDenied e); [repeat split|].
  unfold errorMessage.
  destruct (message e) as [[|c' m]|]; repeat split.
Qed.

End NoticeFacts.

Lemma generate_without_credential_shows_missing_key_witness :
  App.error (App.ui (App.handleGenerate Script scripted None readyPage))
  = Some "API Key is missing. Please ensure process.env.API_KEY is set."
  /\ App.resultImage (App.ui (App.handleGenerate Script scripted None readyPage)) = None
  /\ App.isGenerating (App.ui (App.handleGenerate Script scripted None readyPage)) = false
  /\ App.service (App.handleGenerate Script scripted None readyPage)
     = start deniedThenImage.
Proof.
  apply (generate_without_credential_shows_missing_key Script scripted None readyPage
           {| App.file := pngFile; App.previewUrl := "blob:1";
              App.base64 := "QUFB"; App.mimeType := "image/png" |}
           {| App.file := jpegFile; App.previewUrl := "blob:2";
              App.base64 := "QkJC"; App.mimeType := "image/jpeg" |});
    reflexivity || discriminate.
Defined.

Lemma notice_after_rejected_generation_witness :
  App.error
    (App.ui
       (App.handleGenerate Script scripted (Some "key")
          {| App.ui :=
               App.setConfig
                 {| App.aspectRatio := PORTRAIT; App.quality := STANDARD |}
                 (App.ui readyPage);
             App.service := start [ Throw (Rejection (Some 500%Z) None) ];
             App.objectUrls := [];
             App.downloads := [] |}))
  = Some "Failed to generate image. Please try again.".
Proof.
  apply (notice_after_rejected_generation Script scripted (Some "key")
           {| App.ui :=
                App.setConfig
                  {| App.aspectRatio := PORTRAIT; App.quality := STANDARD |}
                  (App.ui readyPage);
              App.service := start [ Throw (Rejection (Some 500%Z) None) ];
              App.objectUrls := [];
              App.downloads := [] |}
           {| App.file := pngFile; App.previewUrl := "blob:1";
              App.base64 := "QUFB"; App.mimeType := "image/png" |}
           {| App.file := jpegFile; App.previewUrl := "blob:2";
              App.base64 := "QkJC"; App.mimeType := "image/jpeg" |}
           (Rejection (Some 500%Z) None));
    reflexivity || discriminate.
Defined.
